(** * Excel taskpane backend: a model of [app.py] and the properties of its
    HTTP surface.

    The development follows the layout of the Python module: the JSON
    encoder ([RobustJSONEncoder]), the three lookups of the automation
    binding ([get_excel_app], [get_active_workbook], [get_worksheet]), the
    tabular read handler ([get_excel_data]) and the batch write handler
    ([write_excel_data]).  Python values are modelled by inductive types,
    calls that may raise by the [outcome] monad, the spreadsheet that the
    write handler mutates by explicit state passing. *)

From Stdlib Require Import ZArith String Ascii List Bool Lia.
From Stdlib Require Import Floats.SpecFloat.
From stdpp Require Import base option strings list gmap pretty.

Set Warnings "-register-all".
Local Open Scope Z_scope.
Local Open Scope string_scope.

(** ** Python values and exceptions *)

(** A value decoded from a JSON document ([request.get_json()]): [None],
    [bool], [int], [float], [str], [list] and [dict].  A [dict] keeps its
    bindings in insertion order. *)
Inductive json : Type :=
| JNull
| JBool (b : bool)
| JInt (z : Z)
| JFloat (x : spec_float)
| JStr (s : string)
| JArr (items : list json)
| JObj (fields : list (string * json)).

(** Exceptions derived from [Exception].  [Raised cls msg] is an exception
    of class [cls] raised by a library call, with [str(e) = msg]; the
    others are raised by the interpreter on an ill-typed operation. *)
Inductive exn : Type :=
| Raised (cls msg : string)
| MissingKey (key : string)                 (* KeyError of a dict *)
| MissingLabel                              (* KeyError of a label lookup *)
| NoAttribute (v : json) (attr : string)    (* AttributeError *)
| NotIterable (v : json)                    (* TypeError of [for] and [in] *)
| BadSubscript (v : json) (key : string)    (* TypeError of [v[key]] *)
| NotSerializable.                          (* raised by the JSON serializer *)

(** The result of a call: a value, or an exception. *)
Inductive outcome (A : Type) : Type :=
| Returns (a : A)
| Raises (e : exn).
Arguments Returns {A} a.
Arguments Raises {A} e.

#[export] Instance outcome_ret : MRet outcome := fun A a => Returns a.
#[export] Instance outcome_bind : MBind outcome := fun A B f m =>
  match m with
  | Returns a => f a
  | Raises e => Raises e
  end.

#[export] Instance outcome_fmap : FMap outcome := fun A B f m =>
  match m with
  | Returns a => Returns (f a)
  | Raises e => Raises e
  end.

(** [try: return e / except Exception: return None]. *)
Definition or_none {A : Type} (m : outcome (option A)) : option A :=
  match m with
  | Returns a => a
  | Raises _ => None
  end.

(** Truth value of a decoded JSON value ([if v:], [not v]). *)
Definition float_is_zero (x : spec_float) : bool :=
  match x with
  | S754_zero _ => true
  | _ => false
  end.

Definition truthy (v : json) : bool :=
  match v with
  | JNull => false
  | JBool b => b
  | JInt z => negb (z =? 0)%Z
  | JFloat x => negb (float_is_zero x)
  | JStr s => negb (String.eqb s "")
  | JArr items => negb (Nat.eqb (length items) 0)
  | JObj fields => negb (Nat.eqb (length fields) 0)
  end.

(** [d.get(key)] on a [dict]: the bound value, or [None]. *)
Fixpoint dict_lookup (fields : list (string * json)) (key : string) : option json :=
  match fields with
  | [] => None
  | (k, v) :: rest => if String.eqb k key then Some v else dict_lookup rest key
  end.

Definition dict_get (fields : list (string * json)) (key : string) : json :=
  default JNull (dict_lookup fields key).

(** [v.get(key)]: only a [dict] has the method. *)
Definition py_get (v : json) (key : string) : outcome json :=
  match v with
  | JObj fields => Returns (dict_get fields key)
  | _ => Raises (NoAttribute v "get")
  end.

Definition is_str (v : json) (s : string) : bool :=
  match v with
  | JStr t => String.eqb t s
  | _ => false
  end.

(** [sub in s] on strings. *)
Fixpoint substring_of (sub s : string) : bool :=
  String.prefix sub s ||
  match s with
  | EmptyString => false
  | String _ rest => substring_of sub rest
  end.

(** [key in v]. *)
Definition py_contains (key : string) (v : json) : outcome bool :=
  match v with
  | JObj fields => Returns (bool_decide (is_Some (dict_lookup fields key)))
  | JArr items => Returns (existsb (fun x => is_str x key) items)
  | JStr s => Returns (substring_of key s)
  | _ => Raises (NotIterable v)
  end.

(** [v[key]] with a string key. *)
Definition py_getitem (v : json) (key : string) : outcome json :=
  match v with
  | JObj fields =>
      match dict_lookup fields key with
      | Some x => Returns x
      | None => Raises (MissingKey key)
      end
  | _ => Raises (BadSubscript v key)
  end.

(** [for x in v]: the items of a list, the keys of a dict, the characters
    of a string. *)
Definition chars (s : string) : list json :=
  map (fun c => JStr (String c EmptyString)) (list_ascii_of_string s).

Definition py_iter (v : json) : outcome (list json) :=
  match v with
  | JArr items => Returns items
  | JObj fields => Returns (map (fun kv => JStr (fst kv)) fields)
  | JStr s => Returns (chars s)
  | _ => Raises (NotIterable v)
  end.

(** [str(v)] as an f-string field renders it.  The text of a float and of
    a container is left to [py_repr]. *)
Definition py_str (py_repr : json -> string) (v : json) : string :=
  match v with
  | JNull => "None"
  | JBool true => "True"
  | JBool false => "False"
  | JInt z => pretty z
  | JStr s => s
  | _ => py_repr v
  end.

(** [s.lower()].  Only the letters [A]..[Z] are mapped; a byte of a
    multi-byte character is kept, so that the comparison with an ASCII
    literal is the one Python makes. *)
Definition is_upper (c : ascii) : bool :=
  let n := N_of_ascii c in ((65 <=? n) && (n <=? 90))%N.

Definition lower_ascii (c : ascii) : ascii :=
  if is_upper c then ascii_of_N (N_of_ascii c + 32) else c.

Fixpoint lower (s : string) : string :=
  match s with
  | EmptyString => EmptyString
  | String c rest => String (lower_ascii c) (lower rest)
  end.

(** [request.args]: the query parameters in the order received;
    [args.get(key)] is the first value of [key]. *)
Fixpoint args_get (args : list (string * string)) (key : string) : option string :=
  match args with
  | [] => None
  | (k, v) :: rest => if String.eqb k key then Some v else args_get rest key
  end.

(** ** The JSON encoder (class [RobustJSONEncoder]) *)

Module RobustJSONEncoder.

(** What [default] returns: a value the JSON serializer writes natively. *)
Inductive native : Type :=
| NNone
| NInt (z : Z)
| NFloat (x : spec_float)
| NStr (s : string)
| NList (items : list native).

(** The input categories, by the names of the dispatch table. *)
Inductive category : Type :=
| CInteger      (* np.integer *)
| CFloating     (* np.floating *)
| CDecimal      (* Decimal *)
| CNdarray      (* np.ndarray *)
| CDatetime     (* datetime, pd.Timestamp *)
| CMissing.     (* pd.isna(obj) *)

Section Encoder.

(** The numeric and temporal types of numpy, pandas and the standard
    library are kept abstract, with the conversions [default] calls:
    [float(obj)] on a numpy float and on a [Decimal], [obj.isoformat()].
    [float] of a [Decimal] raises [ValueError] on a signalling NaN. *)
Context {npfloat decimal datetime : Type}.
Context (float_of_npfloat : npfloat -> spec_float).
Context (float_of_decimal : decimal -> outcome spec_float).
Context (isoformat : datetime -> string).

(** A numeric [np.ndarray]: a scalar of its dtype (0 dimensions) or a
    sequence of sub-arrays along the first axis. *)
Inductive npnumber : Type :=
| NpInt (z : Z)
| NpFloat (x : npfloat).

Inductive ndarray : Type :=
| Item (x : npnumber)
| Axis (subs : list ndarray).

(** An object handed to [default], by what the tests of [default] see of
    it.  Each of the first five fields is [Some v] when [isinstance] holds
    for that class, [v] being the object as a value of the class, and
    [None] when it does not; [isna] is what [pd.isna(obj)] gives when
    [elif] takes its truth value.  The fields are independent: [pd.NaT] is
    a [datetime] and [pd.isna] holds of it, a numpy float nan is an
    [np.floating] and [pd.isna] holds of it. *)
Record pyobj : Type := {
  as_np_integer : option Z;             (* isinstance(obj, np.integer) *)
  as_np_floating : option npfloat;      (* isinstance(obj, np.floating) *)
  as_np_ndarray : option ndarray;       (* isinstance(obj, np.ndarray) *)
  as_datetime : option datetime;        (* isinstance(obj, (datetime, pd.Timestamp)) *)
  as_decimal : option decimal;          (* isinstance(obj, Decimal) *)
  isna : outcome bool                   (* pd.isna(obj) *)
}.

Definition native_of_npnumber (x : npnumber) : native :=
  match x with
  | NpInt z => NInt z
  | NpFloat x => NFloat (float_of_npfloat x)
  end.

(** [a.tolist()]. *)
Fixpoint tolist (a : ndarray) : native :=
  match a with
  | Item x => native_of_npnumber x
  | Axis subs => NList (map tolist subs)
  end.

(** [super().default(obj)] raises [TypeError]. *)
Definition super_default (obj : pyobj) : outcome native :=
  Raises NotSerializable.

(** [default], lines 16 to 29. *)
Definition default (obj : pyobj) : outcome native :=
  match as_np_integer obj with
  | Some z => Returns (NInt z)
  | None =>
  match as_np_floating obj with
  | Some x => Returns (NFloat (float_of_npfloat x))
  | None =>
  match as_np_ndarray obj with
  | Some a => Returns (tolist a)
  | None =>
  match as_datetime obj with
  | Some d => Returns (NStr (isoformat d))
  | None =>
  match as_decimal obj with
  | Some d => NFloat <$> float_of_decimal d
  | None =>
  match isna obj with
  | Returns true => Returns NNone
  | Returns false => super_default obj
  | Raises e => Raises e
  end end end end end end.

(** One arm of the [if]/[elif] chain, taken alone: [None] when its test
    fails, the result of its [return] otherwise. *)
Definition arm : Type := pyobj -> option (outcome native).

Definition on_integer : arm := fun obj =>
  (fun z => Returns (NInt z)) <$> as_np_integer obj.

Definition on_floating : arm := fun obj =>
  (fun x => Returns (NFloat (float_of_npfloat x))) <$> as_np_floating obj.

Definition on_ndarray : arm := fun obj =>
  (fun a => Returns (tolist a)) <$> as_np_ndarray obj.

Definition on_datetime : arm := fun obj =>
  (fun d => Returns (NStr (isoformat d))) <$> as_datetime obj.

Definition on_decimal : arm := fun obj =>
  (fun d => NFloat <$> float_of_decimal d) <$> as_decimal obj.

Definition on_missing : arm := fun obj =>
  match isna obj with
  | Returns true => Some (Returns NNone)
  | Returns false => None
  | Raises e => Some (Raises e)
  end.

Definition arm_of (c : category) : arm :=
  match c with
  | CInteger => on_integer
  | CFloating => on_floating
  | CDecimal => on_decimal
  | CNdarray => on_ndarray
  | CDatetime => on_datetime
  | CMissing => on_missing
  end.

(** A dispatch that tries the arms in a given order: the first arm that
    applies decides. *)
Fixpoint first_match (order : list category) (obj : pyobj) : outcome native :=
  match order with
  | [] => super_default obj
  | c :: rest =>
      match arm_of c obj with
      | Some r => r
      | None => first_match rest obj
      end
  end.

(** The order of the tests in [default], lines 17 to 27. *)
Definition dispatch_order : list category :=
  [CInteger; CFloating; CNdarray; CDatetime; CDecimal; CMissing].

(** The order of the dispatch table of the specification. *)
Definition spec_dispatch_order : list category :=
  [CInteger; CFloating; CDecimal; CNdarray; CDatetime; CMissing].

(** The output that the dispatch table lists for a category, on an object
    that is in it. *)
Definition listed_output (c : category) (obj : pyobj) (r : outcome native) : Prop :=
  match c with
  | CInteger => exists z, as_np_integer obj = Some z /\ r = Returns (NInt z)
  | CFloating =>
      exists x, as_np_floating obj = Some x
                /\ r = Returns (NFloat (float_of_npfloat x))
  | CDecimal =>
      exists d, as_decimal obj = Some d /\ r = NFloat <$> float_of_decimal d
  | CNdarray => exists a, as_np_ndarray obj = Some a /\ r = Returns (tolist a)
  | CDatetime =>
      exists d, as_datetime obj = Some d /\ r = Returns (NStr (isoformat d))
  | CMissing =>
      (isna obj = Returns true /\ r = Returns NNone)
      \/ exists e, isna obj = Raises e /\ r = Raises e
  end.

End Encoder.

(** A value made of integers and floats, nested in lists. *)
Fixpoint numbers_only (v : native) : bool :=
  match v with
  | NInt _ | NFloat _ => true
  | NList items => forallb numbers_only items
  | NNone | NStr _ => false
  end.

End RobustJSONEncoder.

(** ** Cell addresses *)

(** Modelled from the spec: [xw.utils.int_to_col_letter] belongs to the
    automation binding, which is not part of the repository.  It is the
    standard column-letter encoding (1 is A, 26 is Z, 27 is AA): the
    bijective base-26 numeral of the column, most significant letter
    first. *)
Fixpoint col_letters (fuel : nat) (n : Z) : string :=
  match fuel with
  | O => ""
  | S fuel' =>
      if (n <=? 0)%Z then ""
      else col_letters fuel' ((n - 1) / 26)
           +:+ String (ascii_of_N (Z.to_N (65 + (n - 1) mod 26))) ""
  end.

Definition int_to_col_letter (n : Z) : string :=
  col_letters (Z.to_nat n) n.

(** [int_to_col_letter(start_col + j) + str(start_row + i + 1)], line 138. *)
Definition cell_addr (start_row start_col : Z) (i j : nat) : string :=
  int_to_col_letter (start_col + Z.of_nat j)
  +:+ pretty (start_row + Z.of_nat i + 1).

(** ** The automation binding *)

Section Binding.

(** The values of spreadsheet cells, as pandas holds them; column labels
    are compared as pandas compares them. *)
Context {value : Type} `{EqDecision value}.

(** [used_range.options(pd.DataFrame, header=1, index=False).value]: the
    labels of the header row and one record per data row.  With
    [index=False] the index is 0, 1, 2, ...  The columns have their own
    dtypes; [upcast] is the conversion of a value to the common dtype of
    the columns, which pandas applies when it hands out a row as one
    Series: an integer next to a column of floats becomes a float, and
    nothing changes when the columns have one dtype or hold objects. *)
Record DataFrame : Type := {
  columns : list value;
  records : list (list value);
  upcast : value -> value
}.

(** A range has 1-based anchor coordinates. *)
Record Range : Type := {
  row : positive;
  column : positive;
  options_value : outcome (option DataFrame)
}.

Record Sheet : Type := {
  ws_name : string;                             (* worksheet.name *)
  used_range : outcome (option Range)
}.

Record Book : Type := {
  wb_name : string;                             (* workbook.name *)
  sheets_item : json -> outcome Sheet;          (* workbook.sheets[name] *)
  sheets_active : outcome (option Sheet)        (* workbook.sheets.active *)
}.

Record App : Type := {
  books_item : json -> outcome Book;            (* app.books[name] *)
  books_active : outcome (option Book)          (* app.books.active *)
}.

Record Xw : Type := {
  apps_active : outcome (option App)            (* xw.apps.active *)
}.

(** *** The locator, lines 33 to 61 *)

Definition get_excel_app (xw : Xw) : option App :=
  or_none (apps_active xw).

Definition get_active_workbook (xw : Xw) (app : option App) : option Book :=
  let app := match app with
             | None => get_excel_app xw
             | Some a => Some a
             end in
  match app with
  | None => None
  | Some a => or_none (books_active a)
  end.

Definition get_worksheet (workbook : Book) (sheet_name : json) : option Sheet :=
  if truthy sheet_name then
    match sheets_item workbook sheet_name with
    | Returns s => Some s
    | Raises _ => None
    end
  else or_none (sheets_active workbook).

(** *** Responses *)

(** One entry of [results]: [{"success": msg}] or [{"error": msg}]. *)
Inductive op_result : Type :=
| Success (msg : string)
| Error (msg : string).

Record excel_data : Type := {
  workbook : string;
  sheet : string;
  data : list (list (value * value));
  shape : nat * nat;
  cell_mapping : option (gmap string value)
}.

(** The JSON document of a response. *)
Inductive payload : Type :=
| ErrorMsg (msg : string)          (* {"error": msg} *)
| ErrorStr (e : exn)               (* {"error": str(e)} *)
| ExcelData (d : excel_data)
| Results (rs : list op_result).   (* {"results": rs} *)

Record Response : Type := {
  status : Z;
  body : payload
}.

(** [except Exception as e: return jsonify({"error": str(e)}), 500]. *)
Definition handle (r : outcome Response) : Response :=
  match r with
  | Returns resp => resp
  | Raises e => {| status := 500; body := ErrorStr e |}
  end.

Definition error_response (code : Z) (msg : string) : Response :=
  {| status := code; body := ErrorMsg msg |}.

(** *** Tables *)

Definition df_shape (df : DataFrame) : nat * nat :=
  (length (records df), length (columns df)).

(** [df.empty]: an axis of length 0. *)
Definition df_empty (df : DataFrame) : bool :=
  Nat.eqb (length (records df)) 0 || Nat.eqb (length (columns df)) 0.

(** [d[k] = v] on a dict in insertion order. *)
Fixpoint dict_set (d : list (value * value)) (k v : value) : list (value * value) :=
  match d with
  | [] => [(k, v)]
  | (k', v') :: rest =>
      if decide (k' = k) then (k', v) :: rest else (k', v') :: dict_set rest k v
  end.

(** [df.to_dict('records')]. *)
Definition to_dict_records (df : DataFrame) : list (list (value * value)) :=
  map (fun r => fold_left (fun d kv => dict_set d (fst kv) (snd kv))
                          (zip (columns df) r) [])
      (records df).

(** [df.iterrows()], line 136: the values of each row as one Series,
    converted to the common dtype. *)
Definition iterrows (df : DataFrame) : list (list value) :=
  map (map (upcast df)) (records df).

(** What [row[col]] gives on a row Series of [df.iterrows()], whose
    values are [values]: the value under a label that occurs once, the
    sub-series of the values under a label that occurs several times. *)
Inductive item : Type :=
| Scalar (v : value)
| SubSeries (vs : list value).

Definition series_getitem (index values : list value) (label : value) : outcome item :=
  match filter (fun kv => fst kv = label) (zip index values) with
  | [] => Raises MissingLabel
  | [kv] => Returns (Scalar (snd kv))
  | hits => Returns (SubSeries (map snd hits))
  end.

(** The inner loop, lines 137 to 139, from column [j] on. *)
Fixpoint map_columns (start_row start_col : Z) (index : list value)
    (i : nat) (row_values : list value) (j : nat) (cols : list value)
    (cell_mapping : gmap string item) : outcome (gmap string item) :=
  match cols with
  | [] => Returns cell_mapping
  | col :: rest =>
      it ← series_getitem index row_values col;
      map_columns start_row start_col index i row_values (S j) rest
        (<[cell_addr start_row start_col i j := it]> cell_mapping)
  end.

(** The outer loop, line 136, from record [i] on; [rows] are the row
    Series that [df.iterrows()] yields. *)
Fixpoint map_rows (start_row start_col : Z) (index : list value)
    (i : nat) (rows : list (list value))
    (cell_mapping : gmap string item) : outcome (gmap string item) :=
  match rows with
  | [] => Returns cell_mapping
  | row_values :: rest =>
      m ← map_columns start_row start_col index i row_values 0 index cell_mapping;
      map_rows start_row start_col index (S i) rest m
  end.

(** *** Serialization of the read response *)

(** [jsonify] writes a scalar cell value when [encodable] holds of it and
    the list of records when [records_encodable] holds of it (their labels
    become the keys of JSON objects); it raises on a sub-series. *)
Context (encodable : value -> bool).
Context (records_encodable : list (list (value * value)) -> bool).

Definition scalar_of (it : item) : option value :=
  match it with
  | Scalar v => if encodable v then Some v else None
  | SubSeries _ => None
  end.

Definition encode_mapping (m : gmap string item) : outcome (gmap string value) :=
  if bool_decide (map_Forall (fun _ it => is_Some (scalar_of it)) m)
  then Returns (omap scalar_of m)
  else Raises NotSerializable.

Definition encode_records (d : list (list (value * value)))
  : outcome (list (list (value * value))) :=
  if records_encodable d
  then Returns d
  else Raises NotSerializable.

Definition jsonify_data (workbook_name sheet_name : string)
    (records_data : list (list (value * value))) (df_shape : nat * nat)
    (mapping : option (gmap string item)) : outcome Response :=
  d ← encode_records records_data;
  m ← match mapping with
      | None => Returns None
      | Some m => Some <$> encode_mapping m
      end;
  Returns {| status := 200;
             body := ExcelData {| workbook := workbook_name;
                                  sheet := sheet_name;
                                  data := d;
                                  shape := df_shape;
                                  cell_mapping := m |} |}.

(** *** Resolution of the target, lines 88 to 109 and 160 to 181

    Both handlers resolve the application, the workbook and the worksheet
    with the same statements; [text] renders a name inside a message.  The
    result is the response of the step that failed, or the workbook and
    the worksheet. *)
Definition locate (text : json -> string) (xw : Xw)
    (workbook_name sheet_name : json) : Response + (Book * Sheet) :=
  match get_excel_app xw with
  | None => inl (error_response 503 "No Excel application running")
  | Some excel_app =>
      let found :=
        if truthy workbook_name then
          match books_item excel_app workbook_name with
          | Returns wb => inr wb
          | Raises _ =>
              inl (error_response 404
                     ("Workbook '" +:+ text workbook_name +:+ "' not found"))
          end
        else
          match get_active_workbook xw (Some excel_app) with
          | Some wb => inr wb
          | None => inl (error_response 404 "No active workbook found")
          end in
      match found with
      | inl resp => inl resp
      | inr workbook =>
          match get_worksheet workbook sheet_name with
          | Some worksheet => inr (workbook, worksheet)
          | None =>
              if truthy sheet_name then
                inl (error_response 404
                       ("Sheet '" +:+ text sheet_name +:+ "' not found in workbook '"
                        +:+ wb_name workbook +:+ "'"))
              else inl (error_response 404 "No active worksheet found")
          end
      end
  end.

(** *** GET /api/excel-data, lines 79 to 146 *)

(** A query parameter is a [str], or [None] when it is not given. *)
Definition arg_value (o : option string) : json :=
  match o with
  | Some s => JStr s
  | None => JNull
  end.

Definition arg_text (v : json) : string :=
  py_str (fun _ => EmptyString) v.

(** Line 86. *)
Definition include_cell_mapping (args : list (string * string)) : bool :=
  String.eqb (lower (default "true" (args_get args "include_cell_mapping"))) "true".

Definition no_data : Response :=
  error_response 404 "No data found in worksheet".

(** Lines 131 to 141: the mapping is built when the flag is set and the
    table has at most 100 records ([df.shape[0] <= 100]). *)
Definition build_cell_mapping (include_cell_mapping : bool) (used_range : Range)
    (df : DataFrame) : outcome (option (gmap string item)) :=
  if include_cell_mapping && (length (records df) <=? 100)%nat
  then Some <$> map_rows (Z.pos (row used_range)) (Z.pos (column used_range))
                  (columns df) 0 (iterrows df) ∅
  else Returns None.

Definition get_excel_data (xw : Xw) (args : list (string * string)) : Response :=
  handle (
    let workbook_name := arg_value (args_get args "workbook") in
    let sheet_name := arg_value (args_get args "sheet") in
    let include_cell_mapping := include_cell_mapping args in
    match locate arg_text xw workbook_name sheet_name with
    | inl resp => Returns resp
    | inr (workbook, worksheet) =>
        used_range ← used_range worksheet;
        match used_range with
        | None => Returns no_data
        | Some used_range =>
            df ← options_value used_range;
            match df with
            | None => Returns no_data
            | Some df =>
                if df_empty df then Returns no_data
                else
                  mapping ← build_cell_mapping include_cell_mapping used_range df;
                  jsonify_data (wb_name workbook) (ws_name worksheet)
                    (to_dict_records df) (df_shape df) mapping
            end
        end
    end).

(** *** POST /api/write-excel, lines 148 to 222 *)

(** The spreadsheet document is a state [W] of the automation host.
    [range_set_value worksheet addr v w] is the assignment
    [worksheet.range(addr).value = v] in state [w]: the state it leaves,
    and [str(e)] when it raised an exception [e]. *)
Context {W : Type}.
Context (range_set_value : Sheet -> json -> json -> W -> W * option string).
Context (py_repr : json -> string).

(** The body of the loop, lines 186 to 217: the state left and the entry
    appended to [results], or the exception that leaves the loop. *)
Definition write_operation (worksheet : Sheet) (operation : json) (w : W)
  : outcome (W * op_result) :=
  op_type ← py_get operation "type";
  if is_str op_type "write_cell" then
    cell ← py_get operation "cell";
    value ← py_get operation "value";
    if negb (truthy cell) then
      Returns (w, Error "Cell address required for write_cell operation")
    else
      match range_set_value worksheet cell value w with
      | (w', None) =>
          Returns (w', Success ("Written '" +:+ py_str py_repr value
                                +:+ "' to cell " +:+ py_str py_repr cell))
      | (w', Some e) =>
          Returns (w', Error ("Failed to write to cell " +:+ py_str py_repr cell
                              +:+ ": " +:+ e))
      end
  else if is_str op_type "write_range" then
    range_addr ← py_get operation "range";
    values ← py_get operation "values";
    if negb (truthy range_addr) || negb (truthy values) then
      Returns (w, Error "Range and values required for write_range operation")
    else
      match range_set_value worksheet range_addr values w with
      | (w', None) =>
          Returns (w', Success ("Written data to range " +:+ py_str py_repr range_addr))
      | (w', Some e) =>
          Returns (w', Error ("Failed to write to range "
                              +:+ py_str py_repr range_addr +:+ ": " +:+ e))
      end
  else
    Returns (w, Error ("Unknown operation type: " +:+ py_str py_repr op_type)).

(** [for operation in operations], line 185, with [results] so far. *)
Fixpoint write_loop (worksheet : Sheet) (operations : list json) (w : W)
    (results : list op_result) : W * outcome (list op_result) :=
  match operations with
  | [] => (w, Returns results)
  | operation :: rest =>
      match write_operation worksheet operation w with
      | Returns (w', r) => write_loop worksheet rest w' (results ++ [r])
      | Raises e => (w, Raises e)
      end
  end.

Definition no_operations : Response :=
  error_response 400 "No operations provided".

Definition internal_error (e : exn) : Response :=
  {| status := 500; body := ErrorStr e |}.

(** [request_json] is what [request.get_json()] gives. *)
Definition write_excel_data (xw : Xw) (request_json : outcome json) (w : W)
  : W * Response :=
  match request_json with
  | Raises e => (w, internal_error e)
  | Returns data =>
      if negb (truthy data) then (w, no_operations)
      else
        match py_contains "operations" data with
        | Raises e => (w, internal_error e)
        | Returns false => (w, no_operations)
        | Returns true =>
            match
              operations ← py_getitem data "operations";
              workbook_name ← py_get data "workbook";
              sheet_name ← py_get data "sheet";
              Returns (operations, workbook_name, sheet_name)
            with
            | Raises e => (w, internal_error e)
            | Returns (operations, workbook_name, sheet_name) =>
                match locate (py_str py_repr) xw workbook_name sheet_name with
                | inl resp => (w, resp)
                | inr (workbook, worksheet) =>
                    match py_iter operations with
                    | Raises e => (w, internal_error e)
                    | Returns ops =>
                        match write_loop worksheet ops w [] with
                        | (w', Returns results) =>
                            (w', {| status := 200; body := Results results |})
                        | (w', Raises e) => (w', internal_error e)
                        end
                    end
                end
            end
        end
  end.

End Binding.

(** ** Statements of the specification *)

(** Two characters are equal when case is ignored: they are the same, or
    the upper-case and the lower-case form of one letter. *)
Definition is_lower (c : ascii) : bool :=
  let n := N_of_ascii c in ((97 <=? n) && (n <=? 122))%N.

Definition same_char_ignoring_case (c d : ascii) : bool :=
  Ascii.eqb c d
  || (is_upper c && is_lower d && (N_of_ascii c + 32 =? N_of_ascii d)%N)
  || (is_lower c && is_upper d && (N_of_ascii d + 32 =? N_of_ascii c)%N).

Fixpoint equal_ignoring_case (s t : string) : bool :=
  match s, t with
  | EmptyString, EmptyString => true
  | String c s', String d t' =>
      same_char_ignoring_case c d && equal_ignoring_case s' t'
  | _, _ => false
  end.

Fixpoint all_chars (p : ascii -> bool) (s : string) : bool :=
  match s with
  | EmptyString => true
  | String c rest => p c && all_chars p rest
  end.

Definition is_object (v : json) : Prop :=
  match v with
  | JObj _ => True
  | _ => False
  end.

(** An exception of a lookup by name that says the name is absent. *)
Definition is_not_found (e : exn) : bool :=
  match e with
  | Raised cls _ => String.eqb cls "KeyError"
  | MissingKey _ | MissingLabel => true
  | _ => false
  end.

(** An operation that the loop answers with an error entry before it
    calls the automation host: a [write_cell] without a cell, a
    [write_range] without a range or without values, an unknown type. *)
Definition rejected (fields : list (string * json)) : bool :=
  if is_str (dict_get fields "type") "write_cell" then
    negb (truthy (dict_get fields "cell"))
  else if is_str (dict_get fields "type") "write_range" then
    negb (truthy (dict_get fields "range")) || negb (truthy (dict_get fields "values"))
  else true.

(** ** A small workbook, for examples *)

Module Demo.

Definition frame : DataFrame :=
  {| columns := ["Name"; "Age"];
     records := [["Alice"; "25"]; ["Bob"; "30"]];
     upcast := fun v => v |}.

Definition range_B3 : Range :=
  {| row := 3; column := 2; options_value := Returns (Some frame) |}.

Definition sheet1 : Sheet :=
  {| ws_name := "Sheet1"; used_range := Returns (Some range_B3) |}.

Definition blank : Sheet (value := string) :=
  {| ws_name := "Blank"; used_range := Returns None |}.

(** [sheets[name]] raises [missing] for a name that is not a sheet. *)
Definition book_raising (missing : exn) : Book :=
  {| wb_name := "Book1.xlsx";
     sheets_item := fun name =>
       if is_str name "Sheet1" then Returns sheet1
       else if is_str name "Blank" then Returns blank
       else Raises missing;
     sheets_active := Returns (Some sheet1) |}.

Definition book : Book := book_raising (Raised "KeyError" "Sheet9").

Definition app_raising (missing : exn) : App :=
  {| books_item := fun name =>
       if is_str name "Book1.xlsx" then Returns book else Raises missing;
     books_active := Returns (Some book) |}.

Definition host : Xw :=
  {| apps_active := Returns (Some (app_raising (Raised "KeyError" "Book9.xlsx"))) |}.

Definition host_raising (missing : exn) : Xw :=
  {| apps_active := Returns (Some (app_raising missing)) |}.

(** A document that records the assignments made, the latest first, and
    refuses an address that is not a string. *)
Definition set_value (worksheet : Sheet (value := string)) (addr v : json)
    (w : list (json * json)) : list (json * json) * option string :=
  match addr with
  | JStr _ => ((addr, v) :: w, None)
  | _ => (w, Some "invalid address")
  end.

Definition repr (v : json) : string := "...".

Definition always (v : string) : bool := true.

Definition always_records (d : list (list (string * string))) : bool := true.

(** The response to a read without parameters, its document and its
    cell mapping. *)
Definition response : Response :=
  get_excel_data always always_records host [].

Definition document : excel_data :=
  match body response with
  | ExcelData d => d
  | _ => {| workbook := ""; sheet := ""; data := []; shape := (0, 0)%nat;
            cell_mapping := None |}
  end.

Definition mapping : gmap string string :=
  default ∅ (cell_mapping document).

(** A batch of two operations: a write to a cell and an operation of an
    unknown type. *)
Definition write_A1 : json :=
  JObj [("type", JStr "write_cell"); ("cell", JStr "A1"); ("value", JStr "Test Value")].

Definition bogus : json := JObj [("type", JStr "bogus")].

Definition batch : list (string * json) :=
  [("operations", JArr [write_A1; bogus])].

(** A [write_cell] without the field [value]. *)
Definition write_A1_no_value : list (string * json) :=
  [("type", JStr "write_cell"); ("cell", JStr "A1")].

(** A batch whose second operation is the number 1. *)
Definition batch_with_number : list (string * json) :=
  [("operations", JArr [write_A1; JInt 1])].

End Demo.

(** ** GET /health, lines 63 to 77 *)

(** The JSON document of a health response. *)
Inductive health_payload : Type :=
| Healthy (name : string)      (* {"status": "healthy", "workbook": name} *)
| Unhealthy (error : string)   (* {"status": "unhealthy", "error": error} *)
| UnhealthyStr (e : exn).      (* {"status": "unhealthy", "error": str(e)} *)

Record HealthResponse : Type := {
  health_status : Z;
  health_body : health_payload
}.

(** [except Exception as e], lines 76 and 77. *)
Definition health_handle (r : outcome HealthResponse) : HealthResponse :=
  match r with
  | Returns resp => resp
  | Raises e => {| health_status := 500; health_body := UnhealthyStr e |}
  end.

Definition health_check {value : Type} (xw : Xw (value := value)) : HealthResponse :=
  health_handle (
    match get_excel_app xw with
    | None =>
        Returns {| health_status := 503;
                   health_body := Unhealthy "No Excel application running" |}
    | Some excel_app =>
        match get_active_workbook xw (Some excel_app) with
        | None =>
            Returns {| health_status := 404;
                       health_body := Unhealthy "No active workbook found" |}
        | Some workbook =>
            Returns {| health_status := 200;
                       health_body := Healthy (wb_name workbook) |}
        end
    end).

(** ** Further statements *)

Definition is_error (r : op_result) : Prop :=
  match r with
  | Error _ => True
  | Success _ => False
  end.

(** An operation that is an object and is rejected before the write. *)
Definition rejected_operation (op : json) : Prop :=
  match op with
  | JObj fields => rejected fields = true
  | _ => False
  end.

Definition is_list (v : json) : Prop :=
  match v with
  | JArr _ => True
  | _ => False
  end.

(** ** Further examples *)

Module Examples.

(** The binding raises when it is asked for the application. *)
Definition no_excel : Xw (value := string) :=
  {| apps_active := Raises (Raised "XlwingsError" "Couldn't find any active App!") |}.

(** An application without an active workbook. *)
Definition no_book_app : App (value := string) :=
  {| books_item := fun _ => Returns Demo.book;
     books_active := Raises (Raised "IndexError" "") |}.

Definition no_book : Xw (value := string) :=
  {| apps_active := Returns (Some no_book_app) |}.

(** A worksheet whose used range cannot be read. *)
Definition broken_sheet : Sheet (value := string) :=
  {| ws_name := "Broken"; used_range := Raises (Raised "com_error" "RPC failed") |}.

Definition broken_book : Book :=
  {| wb_name := "Broken.xlsx";
     sheets_item := fun _ => Returns broken_sheet;
     sheets_active := Returns (Some broken_sheet) |}.

Definition broken_host : Xw :=
  {| apps_active := Returns (Some {| books_item := fun _ => Returns broken_book;
                                     books_active := Returns (Some broken_book) |}) |}.

(** A workbook whose active sheet cannot be found. *)
Definition no_sheet_book : Book (value := string) :=
  {| wb_name := "Empty.xlsx";
     sheets_item := fun _ => Raises (Raised "KeyError" "");
     sheets_active := Raises (Raised "com_error" "no sheet") |}.

Definition no_sheet_host : Xw :=
  {| apps_active := Returns (Some {| books_item := fun _ => Returns no_sheet_book;
                                     books_active := Returns (Some no_sheet_book) |}) |}.

Definition write_range_A1B2 : list (string * json) :=
  [("type", JStr "write_range"); ("range", JStr "A1:B2");
   ("values", JArr [JArr [JInt 1; JInt 2]; JArr [JInt 3; JInt 4]])].

Definition write_range_no_values : json :=
  JObj [("type", JStr "write_range"); ("range", JStr "A1:B2"); ("values", JArr [])].

Definition write_cell_no_cell : json :=
  JObj [("type", JStr "write_cell"); ("value", JInt 7)].

(** Objects for the encoder: a numpy float is given by its value, a
    [Decimal] by the float nearest to it, or by [None] when it is a
    signalling NaN, a [datetime] by its ISO text. *)
Definition float_of_decimal (d : option spec_float) : outcome spec_float :=
  match d with
  | Some x => Returns x
  | None => Raises (Raised "ValueError" "cannot convert signaling NaN to float")
  end.

Definition obj : Type :=
  RobustJSONEncoder.pyobj (npfloat := spec_float) (decimal := option spec_float)
    (datetime := string).

(** [pd.NaT]: a [datetime] of which [pd.isna] holds. *)
Definition NaT : obj :=
  {| RobustJSONEncoder.as_np_integer := None;
     RobustJSONEncoder.as_np_floating := None;
     RobustJSONEncoder.as_np_ndarray := None;
     RobustJSONEncoder.as_datetime := Some "NaT";
     RobustJSONEncoder.as_decimal := None;
     RobustJSONEncoder.isna := Returns true |}.

(** [Decimal('sNaN')]; comparing it with itself, as [pd.isna] would,
    raises. *)
Definition decimal_snan : obj :=
  {| RobustJSONEncoder.as_np_integer := None;
     RobustJSONEncoder.as_np_floating := None;
     RobustJSONEncoder.as_np_ndarray := None;
     RobustJSONEncoder.as_datetime := None;
     RobustJSONEncoder.as_decimal := Some None;
     RobustJSONEncoder.isna := Raises (Raised "InvalidOperation" "") |}.

(** A table with a column of integers and a column of floats.  A row
    handed out as one Series is a Series of floats: its integers are
    rounded to the nearest binary64 float. *)
Inductive scalar : Type :=
| IntValue (z : Z)
| FloatValue (x : spec_float)
| TextValue (s : string).

#[export] Instance spec_float_eq_dec : EqDecision spec_float.
Proof. solve_decision. Defined.

#[export] Instance scalar_eq_dec : EqDecision scalar.
Proof. solve_decision. Defined.











(** A body whose operations are given as a string. *)
Definition operations_as_text : list (string * json) :=
  [("operations", JStr "abc")].

End Examples.

(** * Properties *)

(** ** The encoder *)

Section EncoderFacts.

Import RobustJSONEncoder.

Context {npfloat decimal datetime : Type}.
Context (float_of_npfloat : npfloat -> spec_float).
Context (float_of_decimal : decimal -> outcome spec_float).
Context (isoformat : datetime -> string).

Local Abbreviation arm_of := (arm_of float_of_npfloat float_of_decimal isoformat).
Local Abbreviation first_match := (first_match float_of_npfloat float_of_decimal isoformat).
Local Abbreviation default := (RobustJSONEncoder.default float_of_npfloat float_of_decimal isoformat).
Local Abbreviation listed_output := (listed_output float_of_npfloat float_of_decimal isoformat).
Local Abbreviation tolist := (tolist float_of_npfloat).

(** The chain of [default] is the dispatch in the order of its tests. *)
Lemma default_first_match (obj : pyobj) :
  default obj = first_match dispatch_order obj.
Proof.
  unfold RobustJSONEncoder.default. simpl.
  unfold on_integer, on_floating, on_ndarray, on_datetime, on_decimal, on_missing.
  destruct (as_np_integer obj); [reflexivity|]. simpl.
  destruct (as_np_floating obj); [reflexivity|]. simpl.
  destruct (as_np_ndarray obj); [reflexivity|]. simpl.
  destruct (as_datetime obj); [reflexivity|]. simpl.
  destruct (as_decimal obj); [reflexivity|]. simpl.
  destruct (isna obj) as [[]|e]; reflexivity.
Qed.

(** The first arm that applies decides, whatever the later arms do. *)
Lemma first_match_first (obj : pyobj) (pre : list category) (c : category)
    (post : list category) (r : outcome native) :
  Forall (fun c' => arm_of c' obj = None) pre ->
  arm_of c obj = Some r ->
  first_match (pre ++ c :: post)%list obj = r.
Proof.
  intros Hpre Hc. induction Hpre as [|c' pre Hc' _ IH]; simpl.
  - by rewrite Hc.
  - by rewrite Hc'.
Qed.

(** An arm that applies returns the output listed for its category. *)
Lemma arm_listed (obj : pyobj) (c : category) (r : outcome native) :
  arm_of c obj = Some r -> listed_output c obj r.
Proof.
  destruct c; simpl;
    unfold on_integer, on_floating, on_ndarray, on_datetime, on_decimal, on_missing.
  - destruct (as_np_integer obj); intros Hr; inversion Hr; eauto.
  - destruct (as_np_floating obj); intros Hr; inversion Hr; eauto.
  - destruct (as_decimal obj); intros Hr; inversion Hr; eauto.
  - destruct (as_np_ndarray obj); intros Hr; inversion Hr; eauto.
  - destruct (as_datetime obj); intros Hr; inversion Hr; eauto.
  - destruct (isna obj) as [[]|e]; intros Hr; inversion Hr; eauto.
Qed.

(** Moving the test for decimals before those for arrays and date/time
    values changes nothing on an object that is not both. *)
Lemma first_match_spec_order (obj : pyobj) :
  as_decimal obj = None \/ (as_np_ndarray obj = None /\ as_datetime obj = None) ->
  first_match dispatch_order obj = first_match spec_dispatch_order obj.
Proof.
  intros Hdisjoint. simpl.
  unfold on_integer, on_floating, on_ndarray, on_datetime, on_decimal, on_missing.
  destruct (as_np_integer obj); [reflexivity|]. simpl.
  destruct (as_np_floating obj); [reflexivity|]. simpl.
  destruct Hdisjoint as [-> | [-> ->]]; simpl.
  - reflexivity.
  - reflexivity.
Qed.

(** The list of a numeric array holds numbers only. *)
Lemma tolist_numbers (a : ndarray) : numbers_only (tolist a) = true.
Proof.
  revert a. fix IH 1. intros [x|subs].
  - by destruct x.
  - simpl. induction subs as [|a subs IHsubs]; simpl; [reflexivity|].
    by rewrite IH, IHsubs.
Qed.

(** C3 (as amended): [default] tests the categories in the order integer,
    float, array, date/time, decimal, missing value, and the first test
    that passes decides: an object that is in several categories, as
    [pd.NaT] is a date/time value and a missing value, gets the output of
    the first of them.  The category that decides is mapped to the output
    that the table lists for it (the integer, the float, the nested list
    of numbers, the ISO text, the float, null), where the conversion of a
    decimal to a float may raise and a missing-value test may raise, which
    [default] passes on.  On an object that is not at once a decimal and
    an array or a date/time value, the result is that of a dispatch in the
    order of the table. *)
Theorem default_dispatch (obj : pyobj) :
  dispatch_order = [CInteger; CFloating; CNdarray; CDatetime; CDecimal; CMissing]
  /\ default obj = first_match dispatch_order obj
  /\ (forall pre c post r,
      dispatch_order = (pre ++ c :: post)%list ->
      Forall (fun c' => arm_of c' obj = None) pre ->
      arm_of c obj = Some r ->
      default obj = r /\ listed_output c obj r)
  /\ (forall a, numbers_only (tolist a) = true)
  /\ (as_decimal obj = None \/ (as_np_ndarray obj = None /\ as_datetime obj = None) ->
      default obj = first_match spec_dispatch_order obj).
Proof.
  split; [reflexivity|]. split; [apply default_first_match|]. split; [|split].
  - intros pre c post r Horder Hpre Hc. split.
    + rewrite default_first_match, Horder. by apply first_match_first.
    + by apply arm_listed.
  - apply tolist_numbers.
  - intros Hdisjoint. rewrite default_first_match.
    by apply first_match_spec_order.
Qed.

End EncoderFacts.

(** C3, the order as the table gives it: the third test of [default] is
    the one for arrays, where the table has the fixed-point decimal. *)
Lemma dispatch_order_not_spec_order :
  RobustJSONEncoder.dispatch_order !! 2%nat = Some RobustJSONEncoder.CNdarray
  /\ RobustJSONEncoder.spec_dispatch_order !! 2%nat = Some RobustJSONEncoder.CDecimal
  /\ RobustJSONEncoder.dispatch_order <> RobustJSONEncoder.spec_dispatch_order.
Proof. repeat split; discriminate. Qed.

Lemma default_dispatch_witness :
  RobustJSONEncoder.default (fun x : spec_float => x) Examples.float_of_decimal
    (fun d : string => d) Examples.NaT
  = Returns (RobustJSONEncoder.NStr "NaT")
  /\ RobustJSONEncoder.default (fun x : spec_float => x) Examples.float_of_decimal
       (fun d : string => d) Examples.decimal_snan
     = RobustJSONEncoder.first_match (fun x : spec_float => x)
         Examples.float_of_decimal (fun d : string => d)
         RobustJSONEncoder.spec_dispatch_order Examples.decimal_snan.
Proof.
  split.
  - apply (proj1 (proj2 (proj2 (default_dispatch (fun x : spec_float => x)
                                  Examples.float_of_decimal (fun d : string => d)
                                  Examples.NaT)))
             [RobustJSONEncoder.CInteger; RobustJSONEncoder.CFloating;
              RobustJSONEncoder.CNdarray]
             RobustJSONEncoder.CDatetime
             [RobustJSONEncoder.CDecimal; RobustJSONEncoder.CMissing]).
    + reflexivity.
    + repeat (constructor; [reflexivity|]). constructor.
    + reflexivity.
  - apply (proj2 (proj2 (proj2 (proj2
             (default_dispatch (fun x : spec_float => x) Examples.float_of_decimal
                (fun d : string => d) Examples.decimal_snan))))).
    right. split; reflexivity.
Defined.

(** ** Strings *)

Lemma lower_ascii_true (c d : ascii) :
  d ∈ ["t"; "r"; "u"; "e"]%char ->
  Ascii.eqb (lower_ascii c) d = same_char_ignoring_case c d.
Proof.
  intros Hd. repeat (apply elem_of_cons in Hd as [->|Hd]);
    [| | | |by apply elem_of_nil in Hd];
    destruct c as [[] [] [] [] [] [] [] []]; reflexivity.
Qed.

(** [s.lower() == 'true'] is the comparison that ignores case. *)
Lemma lower_is_true (s : string) :
  String.eqb (lower s) "true" = equal_ignoring_case s "true".
Proof.
  destruct s as [|c1 [|c2 [|c3 [|c4 [|c5 s]]]]]; cbn [lower equal_ignoring_case String.eqb];
    rewrite <- ?lower_ascii_true
      by (rewrite !elem_of_cons; auto);
    repeat match goal with
           | |- context [Ascii.eqb ?a ?b] => destruct (Ascii.eqb a b)
           end; reflexivity.
Qed.

Lemma append_empty (s : string) : "" +:+ s = s.
Proof. reflexivity. Qed.

Lemma append_cons (c : ascii) (s t : string) :
  String c s +:+ t = String c (s +:+ t).
Proof. reflexivity. Qed.

Lemma snoc_not_empty (s : string) (c : ascii) : s +:+ String c "" <> "".
Proof. destruct s; rewrite ?append_empty, ?append_cons; discriminate. Qed.

Lemma all_chars_app (p : ascii -> bool) (s t : string) :
  all_chars p (s +:+ t) = all_chars p s && all_chars p t.
Proof.
  induction s as [|c s IH]; rewrite ?append_empty, ?append_cons; simpl;
    [reflexivity|].
  rewrite IH. apply andb_assoc.
Qed.

(** A run of capital letters followed by text without capital letters
    splits in one way only. *)
Lemma letters_then_rest_inj (l1 l2 d1 d2 : string) :
  all_chars is_upper l1 = true -> all_chars is_upper l2 = true ->
  all_chars (fun c => negb (is_upper c)) d1 = true ->
  all_chars (fun c => negb (is_upper c)) d2 = true ->
  l1 +:+ d1 = l2 +:+ d2 -> l1 = l2 /\ d1 = d2.
Proof.
  revert l2. induction l1 as [|c l1 IH]; intros [|c' l2] H1 H2 Hd1 Hd2 Heq;
    rewrite ?append_empty, ?append_cons in Heq; simpl in *.
  - done.
  - subst d1. simpl in Hd1. apply andb_true_iff in H2 as [H2 _].
    rewrite H2 in Hd1. discriminate.
  - subst d2. simpl in Hd2. apply andb_true_iff in H1 as [H1 _].
    rewrite H1 in Hd2. discriminate.
  - apply andb_true_iff in H1 as [_ H1]. apply andb_true_iff in H2 as [_ H2].
    injection Heq as -> Heq.
    destruct (IH l2 H1 H2 Hd1 Hd2 Heq) as [-> ->]. done.
Qed.

Lemma snoc_inj (s t : string) (c d : ascii) :
  s +:+ String c "" = t +:+ String d "" -> s = t /\ c = d.
Proof.
  revert t. induction s as [|a s IH]; intros [|b t] Heq;
    rewrite ?append_empty, ?append_cons in Heq.
  - by injection Heq as ->.
  - injection Heq as -> Heq. symmetry in Heq. by apply snoc_not_empty in Heq.
  - injection Heq as -> Heq. by apply snoc_not_empty in Heq.
  - injection Heq as -> Heq. destruct (IH t Heq) as [-> ->]. done.
Qed.

(** *** Column letters *)

Lemma col_letters_fuel (f1 f2 : nat) (n : Z) :
  (Z.to_nat n <= f1)%nat -> (Z.to_nat n <= f2)%nat ->
  col_letters f1 n = col_letters f2 n.
Proof.
  revert f2 n. induction f1 as [|f1 IH]; intros [|f2] n H1 H2; simpl.
  - reflexivity.
  - destruct (Z.leb_spec n 0); [reflexivity|lia].
  - destruct (Z.leb_spec n 0); [reflexivity|lia].
  - destruct (Z.leb_spec n 0); [reflexivity|].
    assert (0 <= (n - 1) / 26 < n)%Z.
    { split; [apply Z.div_pos; lia|].
      apply Z.div_lt_upper_bound; lia. }
    rewrite (IH f2); [reflexivity|lia|lia].
Qed.

(** The equation of the loop: the letters of the quotient, then the letter
    of the remainder. *)
Lemma int_to_col_letter_eq (n : Z) :
  int_to_col_letter n =
  if (n <=? 0)%Z then ""
  else int_to_col_letter ((n - 1) / 26)
       +:+ String (ascii_of_N (Z.to_N (65 + (n - 1) mod 26))) "".
Proof.
  unfold int_to_col_letter. destruct (Z.to_nat n) as [|k] eqn:Hk; simpl.
  - destruct (Z.leb_spec n 0); [reflexivity|lia].
  - destruct (Z.leb_spec n 0); [reflexivity|].
    assert (0 <= (n - 1) / 26 < n)%Z.
    { split; [apply Z.div_pos; lia|].
      apply Z.div_lt_upper_bound; lia. }
    rewrite (col_letters_fuel k (Z.to_nat ((n - 1) / 26))); [reflexivity|lia|lia].
Qed.

Lemma letter_code (n : Z) :
  N_of_ascii (ascii_of_N (Z.to_N (65 + (n - 1) mod 26)))
  = Z.to_N (65 + (n - 1) mod 26).
Proof.
  apply N_ascii_embedding.
  pose proof (Z.mod_pos_bound (n - 1) 26). lia.
Qed.

Lemma col_letters_upper (fuel : nat) (n : Z) :
  all_chars is_upper (col_letters fuel n) = true.
Proof.
  revert n. induction fuel as [|fuel IH]; intros n; simpl; [reflexivity|].
  destruct (n <=? 0)%Z; [reflexivity|].
  rewrite all_chars_app, IH. simpl. unfold is_upper. rewrite letter_code.
  pose proof (Z.mod_pos_bound (n - 1) 26).
  rewrite andb_true_r. apply andb_true_iff. split; apply N.leb_le; lia.
Qed.

Lemma int_to_col_letter_inj (n m : Z) :
  (0 < n)%Z -> (0 < m)%Z -> int_to_col_letter n = int_to_col_letter m -> n = m.
Proof.
  remember (Z.to_nat n) as k eqn:Hk. assert (Z.to_nat n <= k)%nat as Hle by lia.
  clear Hk. revert n m Hle.
  induction k as [|k IH]; intros n m Hle Hn Hm Heq; [lia|].
  rewrite (int_to_col_letter_eq n), (int_to_col_letter_eq m) in Heq.
  destruct (Z.leb_spec n 0); [lia|]. destruct (Z.leb_spec m 0); [lia|].
  apply snoc_inj in Heq as [Hq Hr].
  assert (Z.to_N (65 + (n - 1) mod 26) = Z.to_N (65 + (m - 1) mod 26)) as Hr'.
  { rewrite <- (letter_code n), <- (letter_code m). by rewrite Hr. }
  pose proof (Z.mod_pos_bound (n - 1) 26). pose proof (Z.mod_pos_bound (m - 1) 26).
  assert ((n - 1) mod 26 = (m - 1) mod 26)%Z as Hmod by lia.
  assert (0 <= (n - 1) / 26 < n)%Z.
  { split; [apply Z.div_pos; lia|]. apply Z.div_lt_upper_bound; lia. }
  assert (0 <= (m - 1) / 26)%Z by (apply Z.div_pos; lia).
  assert ((n - 1) / 26 = (m - 1) / 26)%Z as Hdiv.
  { destruct (Z.eq_dec ((n - 1) / 26) 0) as [Hn0|Hn0];
      destruct (Z.eq_dec ((m - 1) / 26) 0) as [Hm0|Hm0].
    - lia.
    - rewrite Hn0, (int_to_col_letter_eq ((m - 1) / 26)) in Hq.
      destruct (Z.leb_spec ((m - 1) / 26) 0); [lia|].
      change (int_to_col_letter 0) with "" in Hq.
      symmetry in Hq. by apply snoc_not_empty in Hq.
    - rewrite Hm0, (int_to_col_letter_eq ((n - 1) / 26)) in Hq.
      destruct (Z.leb_spec ((n - 1) / 26) 0); [lia|].
      change (int_to_col_letter 0) with "" in Hq.
      by apply snoc_not_empty in Hq.
    - apply IH; [lia|lia|lia|done]. }
  pose proof (Z.div_mod (n - 1) 26). pose proof (Z.div_mod (m - 1) 26). lia.
Qed.

(** *** Decimal numerals *)

Lemma pretty_N_char_not_upper (x : N) : is_upper (pretty_N_char x) = false.
Proof. unfold pretty_N_char. repeat case_match; reflexivity. Qed.

Lemma pretty_N_go_not_upper (x : N) (s : string) :
  all_chars (fun c => negb (is_upper c)) s = true ->
  all_chars (fun c => negb (is_upper c)) (pretty_N_go x s) = true.
Proof.
  revert s. induction (N.lt_wf_0 x) as [x _ IH]; intros s Hs.
  destruct (decide (0 < x)%N) as [Hpos|Hz].
  - rewrite pretty_N_go_step by done. apply IH.
    + apply N.div_lt; lia.
    + simpl. rewrite pretty_N_char_not_upper. done.
  - assert (x = 0%N) as -> by lia. by rewrite pretty_N_go_0.
Qed.

Lemma pretty_Z_not_upper (z : Z) :
  all_chars (fun c => negb (is_upper c)) (pretty z) = true.
Proof.
  destruct z as [|p|p]; unfold pretty, pretty_Z, pretty, pretty_positive,
    pretty, pretty_N; simpl; [reflexivity| |];
    apply pretty_N_go_not_upper; reflexivity.
Qed.

(** Two cells of a range have different addresses. *)
Lemma cell_addr_inj (start_row start_col : Z) (i j i' j' : nat) :
  (0 < start_col)%Z ->
  cell_addr start_row start_col i j = cell_addr start_row start_col i' j' ->
  i = i' /\ j = j'.
Proof.
  intros Hcol Heq. unfold cell_addr in Heq.
  apply letters_then_rest_inj in Heq as [Hc Hr].
  - apply int_to_col_letter_inj in Hc; [|lia|lia].
    apply (inj pretty) in Hr. lia.
  - apply col_letters_upper.
  - apply col_letters_upper.
  - apply pretty_Z_not_upper.
  - apply pretty_Z_not_upper.
Qed.

(** ** The read handler *)

Lemma bind_returns {A B : Type} (m : outcome A) (f : A -> outcome B) (b : B) :
  (m ≫= f) = Returns b -> exists a, m = Returns a /\ f a = Returns b.
Proof. destruct m as [a|e]; simpl; [eauto|discriminate]. Qed.

Section ReadFacts.

Context {value : Type} `{EqDecision value}.
Context (encodable : value -> bool).
Context (records_encodable : list (list (value * value)) -> bool).


Lemma map_columns_other (sr sc : Z) (index : list value) (i : nat)
    (row_values : list value) (cols : list value) :
  forall (j : nat) (m m' : gmap string item) (k : string),
  map_columns sr sc index i row_values j cols m = Returns m' ->
  (forall t, (t < length cols)%nat -> k <> cell_addr sr sc i (j + t)) ->
  m' !! k = m !! k.
Proof.
  induction cols as [|col rest IH]; intros j m m' k Hrun Hk; simpl in Hrun.
  - by inversion Hrun.
  - apply bind_returns in Hrun as (it & _ & Hrun).
    rewrite (IH _ _ _ k Hrun).
    + apply lookup_insert_ne. intros Heq.
      apply (Hk 0%nat); [simpl; lia|]. by rewrite Nat.add_0_r.
    + intros t Ht. replace (S j + t)%nat with (j + S t)%nat by lia.
      apply Hk. simpl. lia.
Qed.

Lemma map_columns_at (sr sc : Z) (index : list value) (i : nat)
    (row_values : list value) (cols : list value) :
  (0 < sc)%Z ->
  forall (j : nat) (m m' : gmap string item) (t : nat) (col : value),
  map_columns sr sc index i row_values j cols m = Returns m' ->
  cols !! t = Some col ->
  exists it, series_getitem index row_values col = Returns it
             /\ m' !! cell_addr sr sc i (j + t) = Some it.
Proof.
  intros Hsc. induction cols as [|c rest IH]; intros j m m' t col Hrun Ht;
    [discriminate|].
  simpl in Hrun. apply bind_returns in Hrun as (it & Hit & Hrun).
  destruct t as [|t]; simpl in Ht.
  - inversion Ht; subst c. exists it. split; [done|].
    rewrite (map_columns_other _ _ _ _ _ _ _ _ _ _ Hrun).
    + rewrite Nat.add_0_r. apply lookup_insert_eq.
    + intros t _ Heq. apply cell_addr_inj in Heq as [_ Heq]; [lia|done].
  - replace (j + S t)%nat with (S j + t)%nat by lia. eapply IH; eauto.
Qed.

Lemma map_rows_other (sr sc : Z) (index : list value) (rows : list (list value)) :
  forall (i : nat) (m m' : gmap string item) (k : string),
  map_rows sr sc index i rows m = Returns m' ->
  (forall t j, (t < length rows)%nat -> (j < length index)%nat ->
               k <> cell_addr sr sc (i + t) j) ->
  m' !! k = m !! k.
Proof.
  induction rows as [|r rest IH]; intros i m m' k Hrun Hk; simpl in Hrun.
  - by inversion Hrun.
  - apply bind_returns in Hrun as (m1 & Hcols & Hrun).
    rewrite (IH _ _ _ k Hrun).
    + apply (map_columns_other _ _ _ _ _ _ _ _ _ _ Hcols).
      intros t Ht. specialize (Hk 0%nat t). rewrite Nat.add_0_r in Hk.
      apply Hk; simpl; lia.
    + intros t j Ht Hj. replace (S i + t)%nat with (i + S t)%nat by lia.
      apply Hk; simpl; lia.
Qed.

Lemma map_rows_at (sr sc : Z) (index : list value) (rows : list (list value)) :
  (0 < sc)%Z ->
  forall (i : nat) (m m' : gmap string item) (t j : nat)
         (r : list value) (col : value),
  map_rows sr sc index i rows m = Returns m' ->
  rows !! t = Some r -> index !! j = Some col ->
  exists it, series_getitem index r col = Returns it
             /\ m' !! cell_addr sr sc (i + t) j = Some it.
Proof.
  intros Hsc. induction rows as [|r0 rest IH]; intros i m m' t j r col Hrun Ht Hj;
    [discriminate|].
  simpl in Hrun. apply bind_returns in Hrun as (m1 & Hcols & Hrun).
  destruct t as [|t]; simpl in Ht.
  - inversion Ht; subst r0.
    destruct (map_columns_at _ _ _ _ _ _ Hsc _ _ _ _ _ Hcols Hj) as (it & Hit & Hm1).
    exists it. split; [done|].
    rewrite (map_rows_other _ _ _ _ _ _ _ _ Hrun).
    + by rewrite Nat.add_0_r.
    + intros t j' _ _ Heq. apply cell_addr_inj in Heq as [Heq _]; [lia|done].
  - replace (i + S t)%nat with (S i + t)%nat by lia. eapply IH; eauto.
Qed.

(** What the serializer keeps of the mapping. *)
Lemma encode_mapping_lookup (items : gmap string item) (m : gmap string value)
    (k : string) (it : item) :
  encode_mapping encodable items = Returns m -> items !! k = Some it ->
  exists v, it = Scalar v /\ m !! k = Some v.
Proof.
  unfold encode_mapping. intros Henc Hit.
  destruct (bool_decide _) eqn:Hall; [|discriminate].
  inversion Henc; subst m. apply bool_decide_eq_true in Hall.
  destruct (Hall k it Hit) as [v Hv].
  exists v. split.
  - destruct it as [v'|vs]; simpl in Hv; [|discriminate].
    destruct (encodable v'); by inversion Hv.
  - rewrite lookup_omap, Hit. done.
Qed.

(** A failed resolution answers 503 or 404, with an error message. *)
Lemma locate_failure (text : json -> string) (xw : Xw (value := value))
    (workbook_name sheet_name : json) (resp : Response (value := value)) :
  locate text xw workbook_name sheet_name = inl resp ->
  exists msg, resp = error_response 503 msg \/ resp = error_response 404 msg.
Proof.
  unfold locate. intros Hloc.
  destruct (get_excel_app xw) as [app|]; [|inversion Hloc; eauto].
  destruct (truthy workbook_name).
  - destruct (books_item app workbook_name) as [wb|e]; [|inversion Hloc; eauto].
    destruct (get_worksheet wb sheet_name); [discriminate|].
    destruct (truthy sheet_name); inversion Hloc; eauto.
  - destruct (get_active_workbook xw (Some app)) as [wb|]; [|inversion Hloc; eauto].
    destruct (get_worksheet wb sheet_name); [discriminate|].
    destruct (truthy sheet_name); inversion Hloc; eauto.
Qed.

Lemma jsonify_data_returns (workbook_name sheet_name : string)
    (records_data : list (list (value * value))) (shp : nat * nat)
    (mapping : option (gmap string item)) (resp : Response) :
  jsonify_data encodable records_encodable workbook_name sheet_name records_data
    shp mapping = Returns resp ->
  exists d, resp = {| status := 200; body := ExcelData d |}
            /\ shape d = shp
            /\ match mapping with
               | None => cell_mapping d = None
               | Some items =>
                   exists m, encode_mapping encodable items = Returns m
                             /\ cell_mapping d = Some m
               end.
Proof.
  unfold jsonify_data. intros Hjs.
  apply bind_returns in Hjs as (recs & _ & Hjs).
  apply bind_returns in Hjs as (m & Hm & Hjs).
  inversion Hjs; subst resp. eexists. split; [reflexivity|]. split; [reflexivity|].
  simpl. destruct mapping as [items|].
  - destruct (encode_mapping encodable items) as [m'|e] eqn:Henc; [|discriminate].
    inversion Hm; subst m. eauto.
  - by inversion Hm.
Qed.

Lemma get_excel_data_located (xw : Xw) (args : list (string * string))
    (wb : Book) (ws : Sheet) (ur : Range) (df : DataFrame) :
  locate arg_text xw (arg_value (args_get args "workbook"))
    (arg_value (args_get args "sheet")) = inr (wb, ws) ->
  used_range ws = Returns (Some ur) ->
  options_value ur = Returns (Some df) ->
  df_empty df = false ->
  get_excel_data encodable records_encodable xw args =
  handle (build_cell_mapping (include_cell_mapping args) ur df ≫=
          jsonify_data encodable records_encodable (wb_name wb) (ws_name ws)
            (to_dict_records df) (df_shape df)).
Proof.
  intros Hloc Hur Hdf Hne. unfold get_excel_data.
  rewrite Hloc, Hur. simpl. rewrite Hdf. simpl. rewrite Hne. reflexivity.
Qed.

Lemma get_excel_data_200 (xw : Xw) (args : list (string * string)) :
  status (get_excel_data encodable records_encodable xw args) = 200 ->
  exists wb ws ur df mapping,
    locate arg_text xw (arg_value (args_get args "workbook"))
      (arg_value (args_get args "sheet")) = inr (wb, ws)
    /\ used_range ws = Returns (Some ur)
    /\ options_value ur = Returns (Some df)
    /\ df_empty df = false
    /\ build_cell_mapping (include_cell_mapping args) ur df = Returns mapping
    /\ jsonify_data encodable records_encodable (wb_name wb) (ws_name ws)
         (to_dict_records df) (df_shape df) mapping
       = Returns (get_excel_data encodable records_encodable xw args).
Proof.
  intros Hok.
  destruct (locate arg_text xw (arg_value (args_get args "workbook"))
              (arg_value (args_get args "sheet"))) as [resp|[wb ws]] eqn:Hloc.
  { unfold get_excel_data in Hok. rewrite Hloc in Hok. simpl in Hok.
    apply locate_failure in Hloc as (msg & [-> | ->]); discriminate. }
  destruct (used_range ws) as [[ur|]|e] eqn:Hur;
    [|unfold get_excel_data in Hok; rewrite Hloc, Hur in Hok; discriminate..].
  destruct (options_value ur) as [[df|]|e] eqn:Hdf;
    [|unfold get_excel_data in Hok; rewrite Hloc, Hur in Hok; simpl in Hok;
      rewrite Hdf in Hok; discriminate..].
  destruct (df_empty df) eqn:Hne.
  { unfold get_excel_data in Hok. rewrite Hloc, Hur in Hok. simpl in Hok.
    rewrite Hdf in Hok. simpl in Hok. rewrite Hne in Hok. discriminate. }
  rewrite (get_excel_data_located xw args wb ws ur df Hloc Hur Hdf Hne) in Hok |- *.
  exists wb, ws, ur, df.
  destruct (build_cell_mapping (include_cell_mapping args) ur df) as [mapping|e]; [|discriminate].
  exists mapping. simpl in Hok |- *.
  destruct (jsonify_data _ _ _ _ _ _ _) as [resp|e]; [|discriminate].
  auto 10.
Qed.

(** Only a successful response carries the document of the table. *)
Lemma excel_data_body_200 (xw : Xw) (args : list (string * string))
    (d : excel_data) :
  body (get_excel_data encodable records_encodable xw args) = ExcelData d ->
  status (get_excel_data encodable records_encodable xw args) = 200.
Proof.
  unfold get_excel_data. intros Hbody.
  destruct (locate _ _ _ _) as [resp|[wb ws]] eqn:Hloc.
  - apply locate_failure in Hloc as (msg & [-> | ->]); discriminate.
  - destruct (used_range ws) as [[ur|]|e]; simpl in Hbody |- *; try discriminate.
    destruct (options_value ur) as [[df|]|e]; simpl in Hbody |- *; try discriminate.
    destruct (df_empty df); simpl in Hbody |- *; try discriminate.
    destruct (build_cell_mapping _ _ _) as [mapping|e]; simpl in Hbody |- *;
      try discriminate.
    destruct (jsonify_data _ _ _ _ _ _ _) as [resp|e] eqn:Hjs; simpl in Hbody |- *;
      try discriminate.
    by apply jsonify_data_returns in Hjs as (d' & -> & _).
Qed.

(** C4: a successful response of GET /api/excel-data has the field
    [cell_mapping] if and only if the cell-mapping flag is set and the row
    count of the table is at most 100. *)
Theorem cell_mapping_present_iff (xw : Xw) (args : list (string * string)) :
  status (get_excel_data encodable records_encodable xw args) = 200 ->
  exists d, body (get_excel_data encodable records_encodable xw args) = ExcelData d
            /\ (is_Some (cell_mapping d) <->
                include_cell_mapping args = true /\ (fst (shape d) <= 100)%nat).
Proof.
  intros Hok.
  destruct (get_excel_data_200 xw args Hok)
    as (wb & ws & ur & df & mapping & _ & _ & _ & _ & Hbuild & Hjs).
  apply jsonify_data_returns in Hjs as (d & Hresp & Hshape & Hmap).
  exists d. rewrite Hresp. split; [reflexivity|].
  rewrite Hshape. simpl. unfold build_cell_mapping in Hbuild.
  destruct (include_cell_mapping args); simpl in Hbuild.
  - destruct (Nat.leb_spec (length (records df)) 100) as [Hle|Hgt].
    + destruct (map_rows _ _ _ _ _ _) as [items|e]; [|discriminate].
      inversion Hbuild; subst mapping. destruct Hmap as (m & _ & ->).
      split; [auto|eauto].
    + inversion Hbuild; subst mapping. rewrite Hmap.
      split; [intros [m Hm]; discriminate|intros [_ Hle]; lia].
  - inversion Hbuild; subst mapping. rewrite Hmap.
    split; [intros [m Hm]; discriminate|intros [Hf _]; discriminate].
Qed.

Lemma length_iterrows (df : DataFrame (value := value)) :
  length (iterrows df) = length (records df).
Proof. unfold iterrows. apply length_map. Qed.



(** C7: when the application, the workbook and the worksheet resolve and
    the used range is absent, or its table is absent or empty, the
    response is 404 with the message "No data found in worksheet". *)
Theorem no_data_found (xw : Xw) (args : list (string * string))
    (wb : Book) (ws : Sheet) :
  locate arg_text xw (arg_value (args_get args "workbook"))
    (arg_value (args_get args "sheet")) = inr (wb, ws) ->
  (used_range ws = Returns None
   \/ exists ur, used_range ws = Returns (Some ur)
        /\ (options_value ur = Returns None
            \/ exists df, options_value ur = Returns (Some df)
                 /\ (records df = [] \/ columns df = []))) ->
  get_excel_data encodable records_encodable xw args =
  {| status := 404; body := ErrorMsg "No data found in worksheet" |}.
Proof.
  intros Hloc Hcase. unfold get_excel_data. rewrite Hloc.
  destruct Hcase as [Hur|(ur & Hur & [Hdf|(df & Hdf & Hempty)])]; rewrite Hur; simpl.
  - reflexivity.
  - rewrite Hdf. reflexivity.
  - rewrite Hdf. simpl.
    assert (df_empty df = true) as ->; [|reflexivity].
    unfold df_empty. destruct Hempty as [->| ->]; simpl; [reflexivity|].
    apply orb_true_r.
Qed.

(** C9: the cell-mapping flag is true exactly when the parameter
    [include_cell_mapping] is absent or equal to "true" when case is
    ignored; any other value, such as "1", "yes" or "true" between spaces,
    makes it false, and then a successful response has no cell mapping. *)
Theorem include_cell_mapping_flag (xw : Xw) (args : list (string * string)) :
  (include_cell_mapping args = true <->
   args_get args "include_cell_mapping" = None
   \/ exists v, args_get args "include_cell_mapping" = Some v
                /\ equal_ignoring_case v "true" = true)
  /\ (forall v, args_get args "include_cell_mapping" = Some v ->
                v ∈ ["1"; "yes"; " true "; " true"; "true "; "false"; ""] ->
                include_cell_mapping args = false)
  /\ (forall d, include_cell_mapping args = false ->
                body (get_excel_data encodable records_encodable xw args) = ExcelData d ->
                cell_mapping d = None).
Proof.
  split; [|split].
  - unfold include_cell_mapping.
    destruct (args_get args "include_cell_mapping") as [v|]; simpl.
    + rewrite lower_is_true. split.
      * intros Hv. right. eauto.
      * intros [Hnone|(v' & Hv' & Heq)]; [discriminate|]. by inversion Hv'; subst.
    + split; [auto|reflexivity].
  - intros v Hv Hin. unfold include_cell_mapping. rewrite Hv. simpl.
    repeat (apply elem_of_cons in Hin as [->|Hin]; [reflexivity|]).
    by apply elem_of_nil in Hin.
  - intros d Hflag Hbody.
    pose proof (excel_data_body_200 xw args d Hbody) as Hok.
    destruct (get_excel_data_200 xw args Hok)
      as (wb & ws & ur & df & mapping & _ & _ & _ & _ & Hbuild & Hjs).
    apply jsonify_data_returns in Hjs as (d' & Hresp & _ & Hmap).
    rewrite Hresp in Hbody. simpl in Hbody. inversion Hbody; subst d'.
    unfold build_cell_mapping in Hbuild. rewrite Hflag in Hbuild.
    simpl in Hbuild. inversion Hbuild; subst mapping. exact Hmap.
Qed.

(** C6 (as amended): a lookup by name reports every exception in one way,
    whether the name is absent or the lookup failed for another reason:
    [get_worksheet] returns [None], and the handlers answer 404 with the
    message "... not found" that quotes the name. *)
Theorem lookup_failure_reported_as_not_found (text : json -> string)
    (xw : Xw (value := value)) (app : App (value := value))
    (wb : Book (value := value)) (workbook_name sheet_name : json) (e : exn) :
  (truthy sheet_name = true -> sheets_item wb sheet_name = Raises e ->
   get_worksheet wb sheet_name = None)
  /\ (get_excel_app xw = Some app -> truthy workbook_name = true ->
      books_item app workbook_name = Raises e ->
      locate text xw workbook_name sheet_name =
      inl (error_response 404
             ("Workbook '" +:+ text workbook_name +:+ "' not found")))
  /\ (get_excel_app xw = Some app -> truthy workbook_name = true ->
      books_item app workbook_name = Returns wb ->
      truthy sheet_name = true -> sheets_item wb sheet_name = Raises e ->
      locate text xw workbook_name sheet_name =
      inl (error_response 404
             ("Sheet '" +:+ text sheet_name +:+ "' not found in workbook '"
              +:+ wb_name wb +:+ "'"))).
Proof.
  split; [|split].
  - intros Ht Hraise. unfold get_worksheet. by rewrite Ht, Hraise.
  - intros Happ Ht Hraise. unfold locate. by rewrite Happ, Ht, Hraise.
  - intros Happ Ht Hwb Hts Hraise. unfold locate, get_worksheet.
    by rewrite Happ, Ht, Hwb, Hts, Hraise.
Qed.

End ReadFacts.

(** ** The write handler *)

Section WriteFacts.

Context {value W : Type}.
Context (range_set_value : Sheet (value := value) -> json -> json -> W -> W * option string).
Context (py_repr : json -> string).


(** An operation that is a JSON object gets one entry and never leaves
    the loop. *)
Lemma write_operation_object (ws : Sheet) (fields : list (string * json)) (w : W) :
  exists w' r, write_operation range_set_value py_repr ws (JObj fields) w = Returns (w', r).
Proof.
  unfold write_operation. simpl.
  destruct (is_str (dict_get fields "type") "write_cell").
  - destruct (truthy (dict_get fields "cell")); simpl; [|eauto].
    destruct (range_set_value _ _ _ _) as [w' [e|]]; eauto.
  - destruct (is_str (dict_get fields "type") "write_range"); [|eauto].
    destruct (negb _ || negb _); [eauto|].
    destruct (range_set_value _ _ _ _) as [w' [e|]]; eauto.
Qed.

(** An operation rejected before the write leaves the document as it is. *)
Lemma write_operation_rejected (ws : Sheet) (fields : list (string * json)) (w : W) :
  rejected fields = true ->
  exists msg, write_operation range_set_value py_repr ws (JObj fields) w = Returns (w, Error msg).
Proof.
  unfold rejected, write_operation. simpl. intros Hrej.
  destruct (is_str (dict_get fields "type") "write_cell").
  - rewrite Hrej. eauto.
  - destruct (is_str (dict_get fields "type") "write_range"); [|eauto].
    rewrite Hrej. eauto.
Qed.

(** The entries already in [results] stay in front. *)
Lemma write_loop_results (ws : Sheet) (ops : list json) :
  forall (w : W) (acc : list op_result),
  write_loop range_set_value py_repr ws ops w acc =
  (fst (write_loop range_set_value py_repr ws ops w []), app acc <$> snd (write_loop range_set_value py_repr ws ops w [])).
Proof.
  induction ops as [|op ops IH]; intros w acc; simpl.
  - by rewrite app_nil_r.
  - destruct (write_operation range_set_value py_repr ws op w) as [[w' r]|e]; simpl; [|reflexivity].
    rewrite (IH w' (acc ++ [r])%list), (IH w' [r]). simpl. f_equal.
    destruct (snd _); simpl; [|reflexivity]. by rewrite <- app_assoc.
Qed.

Lemma write_loop_cons (ws : Sheet) (op : json) (ops : list json) (w w1 w2 : W)
    (r : op_result) (rs : list op_result) :
  write_operation range_set_value py_repr ws op w = Returns (w1, r) ->
  write_loop range_set_value py_repr ws ops w1 [] = (w2, Returns rs) ->
  write_loop range_set_value py_repr ws (op :: ops) w [] = (w2, Returns (r :: rs)).
Proof.
  intros Hop Hrest. simpl. rewrite Hop. simpl.
  rewrite write_loop_results, Hrest. reflexivity.
Qed.

(** A batch of objects runs to its end, with one entry per operation. *)
Lemma write_loop_objects (ws : Sheet) (ops : list json) :
  Forall is_object ops ->
  forall w : W, exists w' rs,
    write_loop range_set_value py_repr ws ops w [] = (w', Returns rs) /\ length rs = length ops.
Proof.
  induction 1 as [|op ops Hobj _ IH]; intros w.
  - exists w, []. done.
  - destruct op as [| | | | | |fields]; try done.
    destruct (write_operation_object ws fields w) as (w1 & r & Hop).
    destruct (IH w1) as (w2 & rs & Hrest & Hlen).
    exists w2, (r :: rs). split; [by eapply write_loop_cons|].
    simpl. by rewrite Hlen.
Qed.

(** The batch is the operations before, the operation, the operations
    after, each started in the document that the previous one left. *)
Lemma write_loop_split (ws : Sheet) (pre : list json) (op : json) (post : list json) :
  Forall is_object (pre ++ op :: post)%list ->
  forall w : W, exists w1 r1 w2 r w3 r3,
    write_loop range_set_value py_repr ws pre w [] = (w1, Returns r1)
    /\ write_operation range_set_value py_repr ws op w1 = Returns (w2, r)
    /\ write_loop range_set_value py_repr ws post w2 [] = (w3, Returns r3)
    /\ length r1 = length pre
    /\ write_loop range_set_value py_repr ws (pre ++ op :: post)%list w [] = (w3, Returns (r1 ++ r :: r3)%list)
    /\ (w2 = w1 -> write_loop range_set_value py_repr ws (pre ++ post)%list w [] = (w3, Returns (r1 ++ r3)%list)).
Proof.
  induction pre as [|p pre IH]; intros Hobj w; simpl in Hobj.
  - apply Forall_cons in Hobj as [Hop Hpost].
    destruct op as [| | | | | |fields]; try done.
    destruct (write_operation_object ws fields w) as (w2 & r & Hr).
    destruct (write_loop_objects ws post Hpost w2) as (w3 & r3 & Hr3 & _).
    exists w, [], w2, r, w3, r3. repeat split; try done.
    + by eapply write_loop_cons.
    + intros ->. done.
  - apply Forall_cons in Hobj as [Hp Hrest].
    destruct p as [| | | | | |fields]; try done.
    destruct (write_operation_object ws fields w) as (w0 & r0 & Hr0).
    destruct (IH Hrest w0) as (w1 & r1 & w2 & r & w3 & r3 & H1 & H2 & H3 & Hlen & Hall & Hskip).
    exists w1, (r0 :: r1), w2, r, w3, r3. repeat split; try done.
    + by eapply write_loop_cons.
    + simpl. by rewrite Hlen.
    + by eapply write_loop_cons.
    + intros Heq. eapply write_loop_cons; eauto.
Qed.

(** The handler, once the body and the target are known. *)
Lemma write_excel_data_located (xw : Xw) (fields : list (string * json))
    (operations : json) (wb : Book) (ws : Sheet) (w : W) :
  dict_lookup fields "operations" = Some operations ->
  locate (py_str py_repr) xw (dict_get fields "workbook") (dict_get fields "sheet")
  = inr (wb, ws) ->
  write_excel_data range_set_value py_repr xw (Returns (JObj fields)) w =
  match py_iter operations with
  | Raises e => (w, internal_error e)
  | Returns ops =>
      match write_loop range_set_value py_repr ws ops w [] with
      | (w', Returns results) => (w', {| status := 200; body := Results results |})
      | (w', Raises e) => (w', internal_error e)
      end
  end.
Proof.
  intros Hops Hloc. unfold write_excel_data.
  assert (truthy (JObj fields) = true) as ->.
  { destruct fields; [discriminate|reflexivity]. }
  simpl. rewrite Hops. simpl. rewrite Hloc. reflexivity.
Qed.

(** C1 (as amended): when the operations are a list of JSON objects and
    the application, the workbook and the worksheet resolve, the response
    of POST /api/write-excel is 200 and [results] has one entry per
    operation, in the order of the operations.  Each operation is
    processed in the document that the operations before it left, and an
    operation that leaves the document as it was, as one that fails for
    missing fields or an unknown type does, changes neither the entries of
    the other operations nor the final document. *)
Theorem write_excel_batch (xw : Xw) (fields : list (string * json))
    (ops : list json) (wb : Book) (ws : Sheet) (w : W) :
  dict_lookup fields "operations" = Some (JArr ops) ->
  Forall is_object ops ->
  locate (py_str py_repr) xw (dict_get fields "workbook") (dict_get fields "sheet")
  = inr (wb, ws) ->
  exists w' results,
    write_excel_data range_set_value py_repr xw (Returns (JObj fields)) w
    = (w', {| status := 200; body := Results results |})
    /\ length results = length ops
    /\ (forall pre op post, ops = (pre ++ op :: post)%list ->
        exists w1 r1 w2 r w3 r3,
          write_loop range_set_value py_repr ws pre w [] = (w1, Returns r1)
          /\ write_operation range_set_value py_repr ws op w1 = Returns (w2, r)
          /\ write_loop range_set_value py_repr ws post w2 [] = (w3, Returns r3)
          /\ length r1 = length pre
          /\ w' = w3 /\ results = (r1 ++ r :: r3)%list
          /\ (w2 = w1 ->
              write_loop range_set_value py_repr ws (pre ++ post)%list w [] = (w', Returns (r1 ++ r3)%list)))
    /\ (forall op_fields w0, rejected op_fields = true ->
        exists msg, write_operation range_set_value py_repr ws (JObj op_fields) w0 = Returns (w0, Error msg)).
Proof.
  intros Hops Hobj Hloc.
  destruct (write_loop_objects ws ops Hobj w) as (w' & results & Hrun & Hlen).
  exists w', results. split; [|split; [done|split]].
  - rewrite (write_excel_data_located xw fields (JArr ops) wb ws w Hops Hloc).
    simpl. by rewrite Hrun.
  - intros pre op post ->.
    destruct (write_loop_split ws pre op post Hobj w)
      as (w1 & r1 & w2 & r & w3 & r3 & H1 & H2 & H3 & Hl & Hall & Hskip).
    rewrite Hall in Hrun. inversion Hrun; subst.
    exists w1, r1, w2, r, w', r3. auto 10.
  - intros op_fields w0. apply write_operation_rejected.
Qed.

(** C2 (as amended): a [write_cell] operation requires the field [cell]
    only.  When [cell] is missing or empty an error entry is appended and
    no write is attempted.  Otherwise the write is attempted with the
    field [value], which is [None] when it is missing: when the write
    succeeds a success entry that names the value and the cell is
    appended, when it raises an error entry is. *)
Theorem write_cell_operation (ws : Sheet) (fields : list (string * json)) (w : W) :
  is_str (dict_get fields "type") "write_cell" = true ->
  (dict_lookup fields "cell" = None -> truthy (dict_get fields "cell") = false)
  /\ (dict_lookup fields "value" = None -> dict_get fields "value" = JNull)
  /\ (truthy (dict_get fields "cell") = false ->
      write_operation range_set_value py_repr ws (JObj fields) w
      = Returns (w, Error "Cell address required for write_cell operation"))
  /\ (truthy (dict_get fields "cell") = true ->
      forall w',
      range_set_value ws (dict_get fields "cell") (dict_get fields "value") w
      = (w', None) ->
      write_operation range_set_value py_repr ws (JObj fields) w
      = Returns (w', Success ("Written '" +:+ py_str py_repr (dict_get fields "value")
                              +:+ "' to cell "
                              +:+ py_str py_repr (dict_get fields "cell"))))
  /\ (truthy (dict_get fields "cell") = true ->
      forall w' e,
      range_set_value ws (dict_get fields "cell") (dict_get fields "value") w
      = (w', Some e) ->
      write_operation range_set_value py_repr ws (JObj fields) w
      = Returns (w', Error ("Failed to write to cell "
                            +:+ py_str py_repr (dict_get fields "cell")
                            +:+ ": " +:+ e))).
Proof.
  intros Htype. unfold write_operation. simpl. rewrite Htype.
  split; [|split; [|split; [|split]]].
  - unfold dict_get. by intros ->.
  - unfold dict_get. by intros ->.
  - by intros ->.
  - intros -> w' ->. reflexivity.
  - intros -> w' e ->. reflexivity.
Qed.

(** C10: a body whose [operations] is the empty list is not rejected:
    when the application, the workbook and the worksheet resolve, the
    response is 200 with an empty [results], and whatever the automation
    host would do on a write, the document is left as it was. *)
Theorem empty_operations (xw : Xw) (fields : list (string * json))
    (wb : Book) (ws : Sheet) (w : W) :
  dict_lookup fields "operations" = Some (JArr []) ->
  locate (py_str py_repr) xw (dict_get fields "workbook") (dict_get fields "sheet")
  = inr (wb, ws) ->
  write_excel_data range_set_value py_repr xw (Returns (JObj fields)) w
  = (w, {| status := 200; body := Results [] |}).
Proof.
  intros Hops Hloc.
  by rewrite (write_excel_data_located xw fields (JArr []) wb ws w Hops Hloc).
Qed.

End WriteFacts.

(** ** The properties on the small workbook *)

(** C1, as stated, fails: the worksheet resolves, and a batch whose second
    operation is not an object is answered with 500 and no [results],
    after the first operation has been written. *)
Lemma batch_with_non_object_is_500 :
  locate (py_str Demo.repr) Demo.host (dict_get Demo.batch_with_number "workbook")
    (dict_get Demo.batch_with_number "sheet") = inr (Demo.book, Demo.sheet1)
  /\ write_excel_data Demo.set_value Demo.repr Demo.host
       (Returns (JObj Demo.batch_with_number)) []
     = ([(JStr "A1", JStr "Test Value")],
        {| status := 500; body := ErrorStr (NoAttribute (JInt 1) "get") |})
  /\ status (snd (write_excel_data Demo.set_value Demo.repr Demo.host
                    (Returns (JObj Demo.batch_with_number)) [])) <> 200.
Proof. repeat split. discriminate. Qed.

Lemma write_excel_batch_witness :
  exists w' results,
    write_excel_data Demo.set_value Demo.repr Demo.host (Returns (JObj Demo.batch)) []
    = (w', {| status := 200; body := Results results |})
    /\ length results = 2%nat.
Proof.
  destruct (write_excel_batch Demo.set_value Demo.repr Demo.host Demo.batch
              [Demo.write_A1; Demo.bogus] Demo.book Demo.sheet1 [] eq_refl
              ltac:(repeat (constructor; [exact I|]); constructor) eq_refl)
    as (w' & results & Hresp & Hlen & _).
  exists w', results. split; [exact Hresp|exact Hlen].
Defined.

(** C2, as stated, fails: a [write_cell] without the field [value] is not
    answered with an error entry; [None] is written to the cell and a
    success entry is appended. *)
Lemma write_cell_without_value_writes :
  dict_lookup Demo.write_A1_no_value "value" = None
  /\ write_operation Demo.set_value Demo.repr Demo.sheet1
       (JObj Demo.write_A1_no_value) []
     = Returns ([(JStr "A1", JNull)], Success "Written 'None' to cell A1").
Proof. split; reflexivity. Qed.

Lemma write_cell_operation_witness :
  write_operation Demo.set_value Demo.repr Demo.sheet1 Demo.write_A1 []
  = Returns ([(JStr "A1", JStr "Test Value")],
             Success "Written 'Test Value' to cell A1").
Proof.
  exact (proj1 (proj2 (proj2 (proj2
           (write_cell_operation Demo.set_value Demo.repr Demo.sheet1
              [("type", JStr "write_cell"); ("cell", JStr "A1");
               ("value", JStr "Test Value")] [] eq_refl))))
         eq_refl [(JStr "A1", JStr "Test Value")] eq_refl).
Defined.

Lemma cell_mapping_present_iff_witness :
  exists d, body Demo.response = ExcelData d
            /\ (is_Some (cell_mapping d) <->
                include_cell_mapping [] = true /\ (fst (shape d) <= 100)%nat).
Proof.
  exact (cell_mapping_present_iff Demo.always Demo.always_records Demo.host [] eq_refl).
Defined.


Lemma no_data_found_witness :
  get_excel_data Demo.always Demo.always_records Demo.host [("sheet", "Blank")]
  = {| status := 404; body := ErrorMsg "No data found in worksheet" |}.
Proof.
  exact (no_data_found Demo.always Demo.always_records Demo.host [("sheet", "Blank")]
           Demo.book Demo.blank eq_refl (or_introl eq_refl)).
Defined.

Lemma include_cell_mapping_flag_witness :
  include_cell_mapping [("include_cell_mapping", "TRUE")] = true
  /\ include_cell_mapping [("include_cell_mapping", "yes")] = false.
Proof.
  split.
  - apply (proj1 (include_cell_mapping_flag Demo.always Demo.always_records Demo.host
                    [("include_cell_mapping", "TRUE")])).
    right. exists "TRUE". split; reflexivity.
  - apply (proj1 (proj2 (include_cell_mapping_flag Demo.always Demo.always_records Demo.host
                           [("include_cell_mapping", "yes")])) "yes" eq_refl).
    apply list_elem_of_further, list_elem_of_here.
Defined.

(** C6, as stated, fails: a sheet name that is absent and a lookup that
    fails for another reason give the caller the same result, and so do a
    workbook name that is absent and a workbook lookup that fails. *)
Lemma lookup_failure_kinds_indistinguishable :
  is_not_found (Raised "KeyError" "Sheet9") = true
  /\ is_not_found (Raised "ValueError" "malformed name") = false
  /\ get_worksheet (Demo.book_raising (Raised "KeyError" "Sheet9")) (JStr "Sheet9")
     = get_worksheet (Demo.book_raising (Raised "ValueError" "malformed name"))
         (JStr "Sheet9")
  /\ get_excel_data Demo.always Demo.always_records
       (Demo.host_raising (Raised "KeyError" "Book9.xlsx")) [("workbook", "Book9.xlsx")]
     = get_excel_data Demo.always Demo.always_records
         (Demo.host_raising (Raised "ValueError" "malformed name"))
         [("workbook", "Book9.xlsx")].
Proof. repeat split. Qed.

Lemma lookup_failure_reported_as_not_found_witness :
  get_worksheet (Demo.book_raising (Raised "ValueError" "malformed name"))
    (JStr "Sheet9") = None.
Proof.
  exact (proj1 (lookup_failure_reported_as_not_found (py_str Demo.repr) Demo.host
                  (Demo.app_raising (Raised "KeyError" "Book9.xlsx"))
                  (Demo.book_raising (Raised "ValueError" "malformed name"))
                  (JStr "Book1.xlsx") (JStr "Sheet9")
                  (Raised "ValueError" "malformed name"))
           eq_refl eq_refl).
Defined.

Lemma empty_operations_witness :
  write_excel_data Demo.set_value Demo.repr Demo.host
    (Returns (JObj [("operations", JArr [])])) []
  = ([], {| status := 200; body := Results [] |}).
Proof.
  exact (empty_operations Demo.set_value Demo.repr Demo.host
           [("operations", JArr [])] Demo.book Demo.sheet1 [] eq_refl eq_refl).
Defined.

(** * Further properties *)

(** ** Health check and resolution *)

Section LocatorFacts.

Context {value : Type} `{EqDecision value}.
Context (encodable : value -> bool).
Context (records_encodable : list (list (value * value)) -> bool).

Lemma get_excel_app_none (xw : Xw (value := value)) :
  get_excel_app xw = None <->
  apps_active xw = Returns None \/ exists e, apps_active xw = Raises e.
Proof.
  unfold get_excel_app, or_none.
  destruct (apps_active xw) as [[app|]|e]; split; intros Hn; eauto;
    try discriminate; destruct Hn as [Hn|[e' Hn]]; discriminate.
Qed.

(** X1: the health check answers 503 exactly when the binding has no
    active application or raises while looking for it, 404 exactly when
    the application has no active workbook or raises while looking for it,
    and 200 with the name of the active workbook otherwise. *)
Theorem health_check_cases (xw : Xw (value := value)) :
  (health_status (health_check xw) = 503 <->
   apps_active xw = Returns None \/ exists e, apps_active xw = Raises e)
  /\ (health_status (health_check xw) = 404 <->
      exists app, apps_active xw = Returns (Some app)
                  /\ (books_active app = Returns None
                      \/ exists e, books_active app = Raises e))
  /\ (forall name,
      health_check xw = {| health_status := 200; health_body := Healthy name |} <->
      exists app wb, apps_active xw = Returns (Some app)
                     /\ books_active app = Returns (Some wb)
                     /\ wb_name wb = name).
Proof.
  unfold health_check, get_active_workbook, get_excel_app, or_none.
  destruct (apps_active xw) as [[app|]|e] eqn:Happ; simpl.
  - destruct (books_active app) as [[wb|]|e] eqn:Hbook; simpl.
    + split; [|split; [|intros name]]; split; intros Hx.
      * discriminate.
      * destruct Hx as [Hx|[e Hx]]; discriminate.
      * discriminate.
      * destruct Hx as (app' & Hx & Hy). inversion Hx; subst app'.
        rewrite Hbook in Hy. destruct Hy as [Hy|[e Hy]]; discriminate.
      * inversion Hx. eauto.
      * destruct Hx as (app' & wb' & Hx & Hy & Hz). inversion Hx; subst app'.
        rewrite Hbook in Hy. inversion Hy; subst wb'. by rewrite Hz.
    + split; [|split; [|intros name]]; split; intros Hx.
      * discriminate.
      * destruct Hx as [Hx|[e Hx]]; discriminate.
      * eauto.
      * reflexivity.
      * discriminate.
      * destruct Hx as (app' & wb' & Hx & Hy & Hz). inversion Hx; subst app'.
        rewrite Hbook in Hy. discriminate.
    + split; [|split; [|intros name]]; split; intros Hx.
      * discriminate.
      * destruct Hx as [Hx|[e' Hx]]; discriminate.
      * eauto 6.
      * reflexivity.
      * discriminate.
      * destruct Hx as (app' & wb' & Hx & Hy & Hz). inversion Hx; subst app'.
        rewrite Hbook in Hy. discriminate.
  - split; [|split; [|intros name]]; split; intros Hx.
    + auto.
    + reflexivity.
    + discriminate.
    + destruct Hx as (app' & Hx & _). discriminate.
    + discriminate.
    + destruct Hx as (app' & wb' & Hx & _). discriminate.
  - split; [|split; [|intros name]]; split; intros Hx.
    + eauto.
    + reflexivity.
    + discriminate.
    + destruct Hx as (app' & Hx & _). discriminate.
    + discriminate.
    + destruct Hx as (app' & wb' & Hx & _). discriminate.
Qed.

(** The fields of a serialized document. *)
Lemma jsonify_data_fields (workbook_name sheet_name : string)
    (records_data : list (list (value * value))) (shp : nat * nat)
    (mapping : option (gmap string item)) (resp : Response) :
  jsonify_data encodable records_encodable workbook_name sheet_name records_data
    shp mapping = Returns resp ->
  exists d, resp = {| status := 200; body := ExcelData d |}
            /\ workbook d = workbook_name /\ sheet d = sheet_name
            /\ data d = records_data /\ shape d = shp.
Proof.
  unfold jsonify_data, encode_records. intros Hjs.
  destruct (records_encodable records_data); [|discriminate]. simpl in Hjs.
  apply bind_returns in Hjs as (m & _ & Hjs).
  inversion Hjs; subst resp. eexists. repeat split.
Qed.

(** The read handler answers 503 only when no application is found. *)
Lemma get_excel_data_503 (xw : Xw (value := value)) (args : list (string * string)) :
  status (get_excel_data encodable records_encodable xw args) = 503 <->
  get_excel_app xw = None.
Proof.
  split.
  - unfold get_excel_data. intros Hst.
    destruct (locate _ _ _ _) as [resp|[wb ws]] eqn:Hloc.
    + unfold locate in Hloc. destruct (get_excel_app xw) as [app|]; [|reflexivity].
      exfalso. simpl in Hst.
      destruct (truthy _).
      * destruct (books_item app _) as [wb|e]; [|inversion Hloc; subst; discriminate].
        destruct (get_worksheet wb _); [discriminate|].
        destruct (truthy _); inversion Hloc; subst; discriminate.
      * destruct (get_active_workbook xw (Some app)) as [wb|];
          [|inversion Hloc; subst; discriminate].
        destruct (get_worksheet wb _); [discriminate|].
        destruct (truthy _); inversion Hloc; subst; discriminate.
    + exfalso.
      destruct (used_range ws) as [[ur|]|e]; simpl in Hst; try discriminate.
      destruct (options_value ur) as [[df|]|e]; simpl in Hst; try discriminate.
      destruct (df_empty df); simpl in Hst; try discriminate.
      destruct (build_cell_mapping _ _ _) as [mapping|e]; simpl in Hst;
        try discriminate.
      destruct (jsonify_data _ _ _ _ _ _ _) as [resp|e] eqn:Hjs; simpl in Hst;
        try discriminate.
      apply jsonify_data_returns in Hjs as (d' & -> & _). discriminate.
  - intros Hnone. unfold get_excel_data, locate. rewrite Hnone. reflexivity.
Qed.

(** X2: the health check and the read handler agree: one answers 503
    exactly when the other does, and when the health check names a
    workbook, a read that gives no workbook name and succeeds reports that
    same workbook. *)
Theorem health_agrees_with_read (xw : Xw (value := value))
    (args : list (string * string)) :
  (health_status (health_check xw) = 503 <->
   status (get_excel_data encodable records_encodable xw args) = 503)
  /\ (forall name d,
      health_check xw = {| health_status := 200; health_body := Healthy name |} ->
      truthy (arg_value (args_get args "workbook")) = false ->
      body (get_excel_data encodable records_encodable xw args) = ExcelData d ->
      workbook d = name).
Proof.
  split.
  - rewrite get_excel_data_503. unfold health_check.
    destruct (get_excel_app xw) as [app|]; simpl; [|done].
    destruct (get_active_workbook xw (Some app)); simpl; split; discriminate.
  - intros name d Hh Hw Hbody.
    pose proof (excel_data_body_200 encodable records_encodable xw args d Hbody)
      as Hok.
    destruct (get_excel_data_200 encodable records_encodable xw args Hok)
      as (wb' & ws & ur & df & mapping & Hloc & _ & _ & _ & _ & Hjs).
    apply jsonify_data_fields in Hjs as (d' & Hresp & Hwbn & _).
    rewrite Hresp in Hbody. simpl in Hbody. inversion Hbody; subst d'.
    rewrite Hwbn. unfold health_check in Hh. unfold locate in Hloc.
    destruct (get_excel_app xw) as [app|]; [|discriminate].
    rewrite Hw in Hloc.
    destruct (get_active_workbook xw (Some app)) as [wb|]; [|discriminate].
    simpl in Hh. inversion Hh; subst name.
    destruct (get_worksheet wb _) as [ws'|].
    + by inversion Hloc.
    + by destruct (truthy (arg_value (args_get args "sheet"))).
Qed.

(** A name that is false as a condition selects the active target. *)
Lemma locate_falsy_workbook (text : json -> string) (xw : Xw (value := value))
    (a b sheet_name : json) :
  truthy a = false -> truthy b = false ->
  locate text xw a sheet_name = locate text xw b sheet_name.
Proof. intros Ha Hb. unfold locate. by rewrite Ha, Hb. Qed.

Lemma locate_falsy_sheet (text : json -> string) (xw : Xw (value := value))
    (workbook_name a b : json) :
  truthy a = false -> truthy b = false ->
  locate text xw workbook_name a = locate text xw workbook_name b.
Proof.
  intros Ha Hb. unfold locate, get_worksheet. rewrite Ha, Hb. reflexivity.
Qed.

(** X4: an empty [workbook] or [sheet] parameter means the same as none:
    the read handler takes the active workbook or the active worksheet and
    answers as it does without the parameter. *)
Theorem empty_name_selects_active (xw : Xw (value := value))
    (args : list (string * string)) :
  (args_get args "sheet" = None ->
   get_excel_data encodable records_encodable xw (("sheet", "") :: args)
   = get_excel_data encodable records_encodable xw args)
  /\ (args_get args "workbook" = None ->
      get_excel_data encodable records_encodable xw (("workbook", "") :: args)
      = get_excel_data encodable records_encodable xw args).
Proof.
  split; intros Hnone; unfold get_excel_data, include_cell_mapping;
    cbn [args_get String.eqb Ascii.eqb Bool.eqb]; rewrite Hnone; cbn [arg_value].
  - by rewrite (locate_falsy_sheet arg_text xw _ (JStr "") JNull).
  - by rewrite (locate_falsy_workbook arg_text xw (JStr "") JNull).
Qed.

(** X5: a failure to find the active workbook or the active worksheet,
    whether the binding returns nothing or raises, is answered 404 with
    "No active workbook found" or "No active worksheet found". *)
Theorem active_lookup_failure (text : json -> string) (xw : Xw (value := value))
    (app : App (value := value)) (wb : Book (value := value))
    (workbook_name sheet_name : json) :
  (get_excel_app xw = Some app -> truthy workbook_name = false ->
   (books_active app = Returns None \/ exists e, books_active app = Raises e) ->
   locate text xw workbook_name sheet_name
   = inl (error_response 404 "No active workbook found"))
  /\ (get_excel_app xw = Some app -> truthy workbook_name = false ->
      books_active app = Returns (Some wb) -> truthy sheet_name = false ->
      (sheets_active wb = Returns None \/ exists e, sheets_active wb = Raises e) ->
      locate text xw workbook_name sheet_name
      = inl (error_response 404 "No active worksheet found")).
Proof.
  split.
  - intros Happ Hw Hact. unfold locate, get_active_workbook. rewrite Happ, Hw.
    destruct Hact as [-> | [e ->]]; reflexivity.
  - intros Happ Hw Hwb Hs Hact. unfold locate, get_active_workbook, get_worksheet.
    rewrite Happ, Hw, Hwb, Hs. simpl.
    destruct Hact as [-> | [e ->]]; reflexivity.
Qed.

End LocatorFacts.

(** ** The read handler, further *)

Section ReadMore.

Context {value : Type} `{EqDecision value}.
Context (encodable : value -> bool).
Context (records_encodable : list (list (value * value)) -> bool).

(** X6: when the target resolves and the binding raises on the used
    range or on its conversion to a table, the read handler answers 500
    with the text of that exception. *)
Theorem read_failure_is_500 (xw : Xw) (args : list (string * string))
    (wb : Book) (ws : Sheet) (e : exn) :
  locate arg_text xw (arg_value (args_get args "workbook"))
    (arg_value (args_get args "sheet")) = inr (wb, ws) ->
  (used_range ws = Raises e
   \/ exists ur, used_range ws = Returns (Some ur) /\ options_value ur = Raises e) ->
  get_excel_data encodable records_encodable xw args
  = {| status := 500; body := ErrorStr e |}.
Proof.
  intros Hloc Hcase. unfold get_excel_data. rewrite Hloc.
  destruct Hcase as [Hur|(ur & Hur & Hdf)]; rewrite Hur; simpl; [reflexivity|].
  rewrite Hdf. reflexivity.
Qed.

(** X7: the status of a read response and the kind of its document
    always agree: a table comes with 200, the text of an exception with
    500, an error message with 404 or 503, and no other response occurs. *)
Theorem read_status_matches_body (xw : Xw) (args : list (string * string)) :
  match body (get_excel_data encodable records_encodable xw args) with
  | ExcelData _ => status (get_excel_data encodable records_encodable xw args) = 200
  | ErrorStr _ => status (get_excel_data encodable records_encodable xw args) = 500
  | ErrorMsg _ =>
      status (get_excel_data encodable records_encodable xw args) = 404
      \/ status (get_excel_data encodable records_encodable xw args) = 503
  | Results _ => False
  end.
Proof.
  unfold get_excel_data.
  destruct (locate _ _ _ _) as [resp|[wb ws]] eqn:Hloc.
  - apply locate_failure in Hloc as (msg & [-> | ->]); simpl; auto.
  - destruct (used_range ws) as [[ur|]|e]; simpl; auto.
    destruct (options_value ur) as [[df|]|e]; simpl; auto.
    destruct (df_empty df); simpl; auto.
    destruct (build_cell_mapping _ _ _) as [mapping|e]; simpl; auto.
    destruct (jsonify_data _ _ _ _ _ _ _) as [resp|e] eqn:Hjs; simpl; auto.
    by apply jsonify_data_returns in Hjs as (d' & -> & _).
Qed.

Lemma length_to_dict_records (df : DataFrame (value := value)) :
  length (to_dict_records df) = length (records df).
Proof. unfold to_dict_records. apply length_map. Qed.

(** X8: a successful read never reports an empty table: the shape has
    at least one row and one column, and [data] has one record per row. *)
Theorem read_table_not_empty (xw : Xw) (args : list (string * string)) :
  status (get_excel_data encodable records_encodable xw args) = 200 ->
  exists d, body (get_excel_data encodable records_encodable xw args) = ExcelData d
            /\ length (data d) = fst (shape d)
            /\ (1 <= fst (shape d))%nat /\ (1 <= snd (shape d))%nat.
Proof.
  intros Hok.
  destruct (get_excel_data_200 encodable records_encodable xw args Hok)
    as (wb & ws & ur & df & mapping & _ & _ & _ & Hne & _ & Hjs).
  apply jsonify_data_fields in Hjs as (d & Hresp & _ & _ & Hdata & Hshape).
  exists d. rewrite Hresp. split; [reflexivity|].
  rewrite Hdata, Hshape, length_to_dict_records. unfold df_shape, df_empty in *.
  simpl. apply orb_false_iff in Hne as [Hr Hc].
  apply Nat.eqb_neq in Hr. apply Nat.eqb_neq in Hc. lia.
Qed.

(** *** Records *)

Lemma dict_set_fresh (d : list (value * value)) (k v : value) :
  k ∉ d.*1 -> dict_set d k v = (d ++ [(k, v)])%list.
Proof.
  induction d as [|[k' v'] d IH]; simpl; intros Hk; [reflexivity|].
  apply not_elem_of_cons in Hk as [Hne Hk].
  destruct (decide (k' = k)); [congruence|]. by rewrite IH.
Qed.

Lemma to_dict_distinct (ks vs : list value) (acc : list (value * value)) :
  NoDup ks -> (forall k, k ∈ ks -> k ∉ acc.*1) ->
  fold_left (fun d kv => dict_set d (fst kv) (snd kv)) (zip ks vs) acc
  = (acc ++ zip ks vs)%list.
Proof.
  revert vs acc. induction ks as [|k ks IH]; intros vs acc Hnd Hfresh; simpl.
  - by rewrite app_nil_r.
  - destruct vs as [|v vs]; simpl; [by rewrite app_nil_r|].
    apply NoDup_cons in Hnd as [Hk Hnd].
    rewrite dict_set_fresh by (apply Hfresh, list_elem_of_here).
    rewrite IH; [by rewrite <- app_assoc|done|].
    intros k' Hk'. rewrite fmap_app. simpl. rewrite elem_of_app.
    intros [Hin|Hin].
    + by apply (Hfresh k'); [apply list_elem_of_further|].
    + apply list_elem_of_singleton in Hin. congruence.
Qed.

(** What a successful response was computed from. *)
Lemma read_response_parts (xw : Xw) (args : list (string * string))
    (wb : Book) (ws : Sheet) (ur : Range) (df : DataFrame) (d : excel_data) :
  locate arg_text xw (arg_value (args_get args "workbook"))
    (arg_value (args_get args "sheet")) = inr (wb, ws) ->
  used_range ws = Returns (Some ur) ->
  options_value ur = Returns (Some df) ->
  body (get_excel_data encodable records_encodable xw args) = ExcelData d ->
  data d = to_dict_records df /\ shape d = df_shape df
  /\ forall m, cell_mapping d = Some m ->
     exists items,
       map_rows (Z.pos (row ur)) (Z.pos (column ur)) (columns df) 0 (iterrows df) ∅
       = Returns items
       /\ encode_mapping encodable items = Returns m.
Proof.
  intros Hloc Hur Hdf Hbody.
  pose proof (excel_data_body_200 encodable records_encodable xw args d Hbody) as Hok.
  destruct (get_excel_data_200 encodable records_encodable xw args Hok)
    as (wb' & ws' & ur' & df' & mapping & Hloc' & Hur' & Hdf' & _ & Hbuild & Hjs).
  rewrite Hloc in Hloc'. inversion Hloc'; subst wb' ws'.
  rewrite Hur in Hur'. inversion Hur'; subst ur'.
  rewrite Hdf in Hdf'. inversion Hdf'; subst df'.
  pose proof Hjs as Hjs'.
  apply jsonify_data_fields in Hjs as (d1 & Hresp & _ & _ & Hdata & Hshape).
  apply jsonify_data_returns in Hjs' as (d2 & Hresp2 & _ & Hmap).
  rewrite Hresp in Hbody. simpl in Hbody. inversion Hbody; subst d1.
  rewrite Hresp in Hresp2. inversion Hresp2; subst d2.
  split; [done|]. split; [done|]. intros m Hm.
  unfold build_cell_mapping in Hbuild. destruct (_ && _).
  - destruct (map_rows _ _ _ _ _ _) as [items|e]; [|discriminate].
    inversion Hbuild; subst mapping. destruct Hmap as (m' & Henc & Hm').
    exists items. split; [done|]. congruence.
  - inversion Hbuild; subst mapping. congruence.
Qed.

(** X9: when the labels of the header row are distinct, record [i] of
    [data] binds each label, in the order of the columns, to the value of
    row [i] in that column. *)
Theorem read_records_content (xw : Xw) (args : list (string * string))
    (wb : Book) (ws : Sheet) (ur : Range) (df : DataFrame) (d : excel_data)
    (i : nat) (r : list value) :
  locate arg_text xw (arg_value (args_get args "workbook"))
    (arg_value (args_get args "sheet")) = inr (wb, ws) ->
  used_range ws = Returns (Some ur) ->
  options_value ur = Returns (Some df) ->
  body (get_excel_data encodable records_encodable xw args) = ExcelData d ->
  NoDup (columns df) ->
  records df !! i = Some r ->
  data d !! i = Some (zip (columns df) r).
Proof.
  intros Hloc Hur Hdf Hbody Hnd Hr.
  destruct (read_response_parts xw args wb ws ur df d Hloc Hur Hdf Hbody)
    as (Hdata & _).
  rewrite Hdata. unfold to_dict_records.
  change (map ?f ?l) with (f <$> l). rewrite list_lookup_fmap, Hr. simpl.
  f_equal. rewrite to_dict_distinct; [reflexivity|done|].
  intros k _. apply not_elem_of_nil.
Qed.

(** *** The keys of the cell mapping *)

Lemma map_columns_keys (sr sc : Z) (index : list value) (i : nat)
    (row_values : list value) (cols : list value) :
  forall (j : nat) (m m' : gmap string item) (k : string),
  map_columns sr sc index i row_values j cols m = Returns m' ->
  is_Some (m' !! k) ->
  is_Some (m !! k)
  \/ exists t, (t < length cols)%nat /\ k = cell_addr sr sc i (j + t).
Proof.
  induction cols as [|col rest IH]; intros j m m' k Hrun Hk; simpl in Hrun.
  - inversion Hrun; subst. auto.
  - apply bind_returns in Hrun as (it & _ & Hrun).
    destruct (IH _ _ _ k Hrun Hk) as [Hm|(t & Ht & ->)].
    + destruct (decide (cell_addr sr sc i j = k)) as [<-|Hne].
      * right. exists 0%nat. split; [simpl; lia|]. by rewrite Nat.add_0_r.
      * left. by rewrite lookup_insert_ne in Hm.
    + right. exists (S t). split; [simpl; lia|]. f_equal. lia.
Qed.

Lemma map_rows_keys (sr sc : Z) (index : list value) (rows : list (list value)) :
  forall (i : nat) (m m' : gmap string item) (k : string),
  map_rows sr sc index i rows m = Returns m' ->
  is_Some (m' !! k) ->
  is_Some (m !! k)
  \/ exists t j, (t < length rows)%nat /\ (j < length index)%nat
                 /\ k = cell_addr sr sc (i + t) j.
Proof.
  induction rows as [|r rest IH]; intros i m m' k Hrun Hk; simpl in Hrun.
  - inversion Hrun; subst. auto.
  - apply bind_returns in Hrun as (m1 & Hcols & Hrun).
    destruct (IH _ _ _ k Hrun Hk) as [Hm|(t & j & Ht & Hj & ->)].
    + destruct (map_columns_keys _ _ _ _ _ _ _ _ _ _ Hcols Hm) as [Hm0|(t & Ht & ->)].
      * auto.
      * right. exists 0%nat, t. rewrite Nat.add_0_r. simpl. split; [lia|done].
    + right. exists (S t), j. split; [simpl; lia|]. split; [done|]. f_equal. lia.
Qed.

Lemma encode_mapping_keys (items : gmap string item) (m : gmap string value)
    (k : string) :
  encode_mapping encodable items = Returns m ->
  is_Some (m !! k) <-> is_Some (items !! k).
Proof.
  intros Henc. split.
  - unfold encode_mapping in Henc. destruct (bool_decide _); [|discriminate].
    inversion Henc; subst m. rewrite lookup_omap.
    destruct (items !! k); [eauto|]. intros [v Hv]. discriminate.
  - intros [it Hit].
    destruct (encode_mapping_lookup encodable items m k it Henc Hit) as (v & _ & Hv).
    eauto.
Qed.

(** X10: the keys of the cell mapping are the addresses of the cells of
    the table and nothing else: a key is present exactly when it is the
    address of record [i] and column [j] for some [i] below the row count
    and [j] below the column count. *)
Theorem cell_mapping_keys (xw : Xw) (args : list (string * string))
    (wb : Book) (ws : Sheet) (ur : Range) (df : DataFrame)
    (d : excel_data) (m : gmap string value) (k : string) :
  locate arg_text xw (arg_value (args_get args "workbook"))
    (arg_value (args_get args "sheet")) = inr (wb, ws) ->
  used_range ws = Returns (Some ur) ->
  options_value ur = Returns (Some df) ->
  body (get_excel_data encodable records_encodable xw args) = ExcelData d ->
  cell_mapping d = Some m ->
  is_Some (m !! k) <->
  exists i j, (i < length (records df))%nat /\ (j < length (columns df))%nat
              /\ k = cell_addr (Z.pos (row ur)) (Z.pos (column ur)) i j.
Proof.
  intros Hloc Hur Hdf Hbody Hm.
  destruct (read_response_parts xw args wb ws ur df d Hloc Hur Hdf Hbody)
    as (_ & _ & Hparts).
  destruct (Hparts m Hm) as (items & Hrows & Henc).
  rewrite (encode_mapping_keys items m k Henc). split.
  - intros Hk.
    destruct (map_rows_keys _ _ _ _ _ _ _ _ Hrows Hk) as [[it Hit]|(t & j & Ht & Hj & ->)].
    + by rewrite lookup_empty in Hit.
    + rewrite length_iterrows in Ht. eauto.
  - intros (i & j & Hi & Hj & ->).
    rewrite <- length_iterrows in Hi.
    apply lookup_lt_is_Some in Hi as [r Hr]. apply lookup_lt_is_Some in Hj as [col Hcol].
    destruct (map_rows_at _ _ _ _ (Pos2Z.is_pos (column ur)) _ _ _ _ _ _ _
                Hrows Hr Hcol) as (it & _ & Hlook).
    eauto.
Qed.

(** *** The size of the cell mapping *)

Lemma map_columns_size (sr sc : Z) (index : list value) (i : nat)
    (row_values : list value) (cols : list value) :
  (0 < sc)%Z ->
  forall (j : nat) (m m' : gmap string item),
  map_columns sr sc index i row_values j cols m = Returns m' ->
  (forall t, (t < length cols)%nat -> m !! cell_addr sr sc i (j + t) = None) ->
  size m' = (size m + length cols)%nat.
Proof.
  intros Hsc. induction cols as [|col rest IH]; intros j m m' Hrun Hfresh;
    simpl in Hrun.
  - inversion Hrun; subst. simpl. lia.
  - apply bind_returns in Hrun as (it & _ & Hrun).
    rewrite (IH _ _ _ Hrun).
    + rewrite map_size_insert_None; [simpl; lia|].
      specialize (Hfresh 0%nat). rewrite Nat.add_0_r in Hfresh.
      apply Hfresh. simpl. lia.
    + intros t Ht. rewrite lookup_insert_ne.
      * replace (S j + t)%nat with (j + S t)%nat by lia. apply Hfresh. simpl. lia.
      * intros Heq. apply cell_addr_inj in Heq as [_ Heq]; [lia|done].
Qed.

Lemma map_rows_size (sr sc : Z) (index : list value) (rows : list (list value)) :
  (0 < sc)%Z ->
  forall (i : nat) (m m' : gmap string item),
  map_rows sr sc index i rows m = Returns m' ->
  (forall t j, (t < length rows)%nat -> (j < length index)%nat ->
               m !! cell_addr sr sc (i + t) j = None) ->
  size m' = (size m + length rows * length index)%nat.
Proof.
  intros Hsc. induction rows as [|r rest IH]; intros i m m' Hrun Hfresh;
    simpl in Hrun.
  - inversion Hrun; subst. simpl. lia.
  - apply bind_returns in Hrun as (m1 & Hcols & Hrun).
    rewrite (IH _ _ _ Hrun).
    + rewrite (map_columns_size _ _ _ _ _ _ Hsc _ _ _ Hcols); [simpl; lia|].
      intros t Ht. specialize (Hfresh 0%nat t). rewrite Nat.add_0_r in Hfresh.
      apply Hfresh; [simpl; lia|done].
    + intros t j Ht Hj.
      rewrite (map_columns_other _ _ _ _ _ _ _ _ _ _ Hcols).
      * replace (S i + t)%nat with (i + S t)%nat by lia.
        apply Hfresh; [simpl; lia|done].
      * intros t' _ Heq. apply cell_addr_inj in Heq as [Heq _]; [lia|done].
Qed.

Lemma encode_mapping_size (items : gmap string item) (m : gmap string value) :
  encode_mapping encodable items = Returns m -> size m = size items.
Proof.
  intros Henc. rewrite <- !(size_dom (D := gset string)). f_equal.
  apply set_eq. intros k. rewrite !elem_of_dom.
  apply encode_mapping_keys. exact Henc.
Qed.

(** X11: a cell mapping has one entry for every cell of the table: its
    size is the row count times the column count of [shape]. *)
Theorem cell_mapping_size (xw : Xw) (args : list (string * string))
    (d : excel_data) (m : gmap string value) :
  body (get_excel_data encodable records_encodable xw args) = ExcelData d ->
  cell_mapping d = Some m ->
  size m = (fst (shape d) * snd (shape d))%nat.
Proof.
  intros Hbody Hm.
  pose proof (excel_data_body_200 encodable records_encodable xw args d Hbody) as Hok.
  destruct (get_excel_data_200 encodable records_encodable xw args Hok)
    as (wb & ws & ur & df & mapping & Hloc & Hur & Hdf & _ & _ & _).
  destruct (read_response_parts xw args wb ws ur df d Hloc Hur Hdf Hbody)
    as (_ & Hshape & Hparts).
  destruct (Hparts m Hm) as (items & Hrows & Henc).
  rewrite (encode_mapping_size items m Henc), Hshape.
  rewrite (map_rows_size _ _ _ _ (Pos2Z.is_pos (column ur)) _ _ _ Hrows).
  - rewrite map_size_empty, length_iterrows. reflexivity.
  - intros t j _ _. apply lookup_empty.
Qed.

End ReadMore.

(** ** The write handler, further *)

Section WriteMore.

Context {value W : Type}.
Context (range_set_value : Sheet (value := value) -> json -> json -> W -> W * option string).
Context (py_repr : json -> string).

(** The handler, once the body is an object with operations. *)
Lemma write_excel_data_operations (xw : Xw) (fields : list (string * json))
    (operations : json) (w : W) :
  dict_lookup fields "operations" = Some operations ->
  write_excel_data range_set_value py_repr xw (Returns (JObj fields)) w =
  match locate (py_str py_repr) xw (dict_get fields "workbook")
          (dict_get fields "sheet") with
  | inl resp => (w, resp)
  | inr (wb, ws) =>
      match py_iter operations with
      | Raises e => (w, internal_error e)
      | Returns ops =>
          match write_loop range_set_value py_repr ws ops w [] with
          | (w', Returns results) => (w', {| status := 200; body := Results results |})
          | (w', Raises e) => (w', internal_error e)
          end
      end
  end.
Proof.
  intros Hops. unfold write_excel_data.
  assert (truthy (JObj fields) = true) as ->.
  { destruct fields; [discriminate|reflexivity]. }
  simpl. rewrite Hops. simpl.
  destruct (locate _ _ _ _) as [resp|[wb ws]]; reflexivity.
Qed.

(** X13: a body that is false as a condition (no body, an empty object)
    or an object without the key [operations] is answered 400 "No
    operations provided" whatever the state of the automation host, and
    nothing is written. *)
Theorem missing_operations (xw : Xw) (data : json) (w : W) :
  (truthy data = false
   \/ exists fields, data = JObj fields /\ dict_lookup fields "operations" = None) ->
  write_excel_data range_set_value py_repr xw (Returns data) w
  = (w, error_response 400 "No operations provided").
Proof.
  intros [Hfalse|(fields & -> & Hnone)]; unfold write_excel_data.
  - by rewrite Hfalse.
  - destruct (truthy (JObj fields)); [|reflexivity]. simpl. by rewrite Hnone.
Qed.

(** X14: a body that could not be decoded is answered 500, and a body
    that is not an object is answered 400 or 500; in both cases the
    automation host is not consulted and nothing is written. *)
Theorem body_not_an_object (data : json) (w : W) :
  (forall (xw : Xw) e,
     write_excel_data range_set_value py_repr xw (Raises e) w
     = (w, internal_error e))
  /\ (~ is_object data ->
      exists resp : Response (value := value),
        (status resp = 400 \/ status resp = 500)
        /\ forall xw : Xw,
             write_excel_data range_set_value py_repr xw (Returns data) w = (w, resp)).
Proof.
  split; [reflexivity|]. intros Hobj. unfold write_excel_data.
  destruct data as [|b|z|x|s|items|fields]; simpl; [..|done].
  - eexists. split; [|reflexivity]. auto.
  - destruct b; eexists; (split; [|reflexivity]); auto.
  - destruct (negb (z =? 0)%Z); eexists; (split; [|reflexivity]); auto.
  - destruct (negb (float_is_zero x)); eexists; (split; [|reflexivity]); auto.
  - destruct (negb (String.eqb s "")); [|eexists; (split; [|reflexivity]); auto].
    destruct (substring_of "operations" s); eexists; (split; [|reflexivity]); auto.
  - destruct (negb (Nat.eqb (length items) 0));
      [|eexists; (split; [|reflexivity]); auto].
    destruct (existsb _ items); eexists; (split; [|reflexivity]); auto.
Qed.

(** X15: when the application, the workbook or the worksheet does not
    resolve, the write handler returns the response of the failed step
    and no operation is attempted, whatever the operations are. *)
Theorem resolution_failure_aborts (xw : Xw) (fields : list (string * json))
    (operations : json) (resp : Response) (w : W) :
  dict_lookup fields "operations" = Some operations ->
  locate (py_str py_repr) xw (dict_get fields "workbook") (dict_get fields "sheet")
  = inl resp ->
  write_excel_data range_set_value py_repr xw (Returns (JObj fields)) w = (w, resp)
  /\ (status resp = 503 \/ status resp = 404).
Proof.
  intros Hops Hloc. rewrite (write_excel_data_operations xw fields operations w Hops).
  rewrite Hloc. split; [reflexivity|].
  apply locate_failure in Hloc as (msg & [-> | ->]); auto.
Qed.

Lemma write_loop_stops (ws : Sheet) (pre : list json) (bad : json)
    (post : list json) :
  Forall is_object pre -> ~ is_object bad ->
  forall w : W, exists w1 r1,
    write_loop range_set_value py_repr ws pre w [] = (w1, Returns r1)
    /\ write_loop range_set_value py_repr ws (pre ++ bad :: post)%list w []
       = (w1, Raises (NoAttribute bad "get")).
Proof.
  intros Hpre Hbad. induction Hpre as [|p pre Hp _ IH]; intros w.
  - exists w, []. split; [reflexivity|]. simpl.
    destruct bad; try reflexivity. by destruct Hbad.
  - destruct p as [| | | | | |fields]; try done.
    destruct (write_operation_object range_set_value py_repr ws fields w)
      as (w0 & r0 & Hr0).
    destruct (IH w0) as (w1 & r1 & Hrun & Hstop).
    exists w1, (r0 :: r1). split.
    + by eapply write_loop_cons.
    + change ((JObj fields :: pre) ++ bad :: post)%list
        with (JObj fields :: (pre ++ bad :: post))%list.
      cbn [write_loop]. rewrite Hr0. rewrite write_loop_results, Hstop. reflexivity.
Qed.

(** X16: a batch is not undone.  When an operation of the list is not an
    object, the response is 500 with the text of its exception, and the
    document is the one left by the operations before it. *)
Theorem failed_batch_keeps_writes (xw : Xw) (fields : list (string * json))
    (pre : list json) (bad : json) (post : list json)
    (wb : Book) (ws : Sheet) (w : W) :
  dict_lookup fields "operations" = Some (JArr (pre ++ bad :: post)) ->
  Forall is_object pre -> ~ is_object bad ->
  locate (py_str py_repr) xw (dict_get fields "workbook") (dict_get fields "sheet")
  = inr (wb, ws) ->
  exists w1 r1,
    write_loop range_set_value py_repr ws pre w [] = (w1, Returns r1)
    /\ write_excel_data range_set_value py_repr xw (Returns (JObj fields)) w
       = (w1, {| status := 500; body := ErrorStr (NoAttribute bad "get") |}).
Proof.
  intros Hops Hpre Hbad Hloc.
  destruct (write_loop_stops ws pre bad post Hpre Hbad w) as (w1 & r1 & Hrun & Hstop).
  exists w1, r1. split; [done|].
  rewrite (write_excel_data_operations xw fields _ w Hops), Hloc. simpl.
  by rewrite Hstop.
Qed.

Lemma write_loop_rejected (ws : Sheet) (ops : list json) (w : W) :
  Forall rejected_operation ops ->
  exists results,
    write_loop range_set_value py_repr ws ops w [] = (w, Returns results)
    /\ length results = length ops /\ Forall is_error results.
Proof.
  induction 1 as [|op ops Hop _ IH].
  - exists []. repeat split. constructor.
  - destruct op as [| | | | | |fields]; try done. simpl in Hop.
    destruct (write_operation_rejected range_set_value py_repr ws fields w Hop)
      as (msg & Hmsg).
    destruct IH as (results & Hrun & Hlen & Herr).
    exists (Error msg :: results). split; [by eapply write_loop_cons|].
    split; [simpl; by rewrite Hlen|]. by constructor.
Qed.

(** X17: a batch in which every operation is rejected before the write
    (an unknown type, a [write_cell] without a cell, a [write_range]
    without a range or values) is answered 200 with one error entry per
    operation, and the document is left as it was. *)
Theorem rejected_batch_writes_nothing (xw : Xw) (fields : list (string * json))
    (ops : list json) (wb : Book) (ws : Sheet) (w : W) :
  dict_lookup fields "operations" = Some (JArr ops) ->
  Forall rejected_operation ops ->
  locate (py_str py_repr) xw (dict_get fields "workbook") (dict_get fields "sheet")
  = inr (wb, ws) ->
  exists results,
    write_excel_data range_set_value py_repr xw (Returns (JObj fields)) w
    = (w, {| status := 200; body := Results results |})
    /\ length results = length ops /\ Forall is_error results.
Proof.
  intros Hops Hrej Hloc.
  destruct (write_loop_rejected ws ops w Hrej) as (results & Hrun & Hlen & Herr).
  exists results. split; [|done].
  rewrite (write_excel_data_operations xw fields _ w Hops), Hloc. simpl.
  by rewrite Hrun.
Qed.

Lemma is_str_write_range (v : json) :
  is_str v "write_range" = true -> is_str v "write_cell" = false.
Proof.
  destruct v as [| | | |s| |]; simpl; try discriminate.
  intros Hs. apply String.eqb_eq in Hs. by subst s.
Qed.

(** X18: a [write_range] operation requires both [range] and [values]:
    when either is missing or empty (an empty list of values included),
    an error entry is appended and no write is attempted; otherwise the
    values are written to the range, and the entry says that the write
    succeeded or quotes the exception. *)
Theorem write_range_operation (ws : Sheet) (fields : list (string * json)) (w : W) :
  is_str (dict_get fields "type") "write_range" = true ->
  (truthy (dict_get fields "range") = false
   \/ truthy (dict_get fields "values") = false ->
   write_operation range_set_value py_repr ws (JObj fields) w
   = Returns (w, Error "Range and values required for write_range operation"))
  /\ (truthy (dict_get fields "range") = true ->
      truthy (dict_get fields "values") = true ->
      forall w' result,
      range_set_value ws (dict_get fields "range") (dict_get fields "values") w
      = (w', result) ->
      write_operation range_set_value py_repr ws (JObj fields) w
      = Returns (w',
          match result with
          | None =>
              Success ("Written data to range "
                       +:+ py_str py_repr (dict_get fields "range"))
          | Some e =>
              Error ("Failed to write to range "
                     +:+ py_str py_repr (dict_get fields "range") +:+ ": " +:+ e)
          end)).
Proof.
  intros Htype. unfold write_operation. simpl.
  rewrite (is_str_write_range _ Htype), Htype. split.
  - intros [Hr|Hv].
    + by rewrite Hr.
    + rewrite Hv. by rewrite orb_true_r.
  - intros Hr Hv w' result Hset. rewrite Hr, Hv, Hset. simpl.
    by destruct result.
Qed.

(** X19: when [operations] is not a list, nothing is written: the empty
    string and the empty object are answered 200 with no results, every
    other value 500. *)
Theorem operations_not_a_list (xw : Xw) (fields : list (string * json))
    (operations : json) (wb : Book) (ws : Sheet) (w : W) :
  dict_lookup fields "operations" = Some operations ->
  ~ is_list operations ->
  locate (py_str py_repr) xw (dict_get fields "workbook") (dict_get fields "sheet")
  = inr (wb, ws) ->
  exists resp,
    write_excel_data range_set_value py_repr xw (Returns (JObj fields)) w = (w, resp)
    /\ (if truthy operations then status resp = 500
        else match operations with
             | JStr _ | JObj _ => resp = {| status := 200; body := Results [] |}
             | _ => status resp = 500
             end).
Proof.
  intros Hops Hlist Hloc.
  rewrite (write_excel_data_operations xw fields _ w Hops), Hloc.
  destruct operations as [|b|z|x|s|items|kvs]; simpl; [..|done|].
  - eauto.
  - eexists. split; [reflexivity|]. by destruct b.
  - eexists. split; [reflexivity|]. by destruct (negb _).
  - eexists. split; [reflexivity|]. by destruct (negb _).
  - destruct s as [|c s]; simpl; eauto.
  - destruct kvs as [|[k v] kvs]; simpl; eauto.
Qed.

(** X20: the status of a write response and the kind of its document
    always agree: [results] comes with 200, the text of an exception with
    500, an error message with 400, 404 or 503. *)
Theorem write_status_matches_body (xw : Xw) (request_json : outcome json) (w : W) :
  let resp := snd (write_excel_data range_set_value py_repr xw request_json w) in
  match body resp with
  | Results _ => status resp = 200
  | ErrorStr _ => status resp = 500
  | ErrorMsg _ => status resp = 400 \/ status resp = 404 \/ status resp = 503
  | ExcelData _ => False
  end.
Proof.
  unfold write_excel_data. destruct request_json as [data|e]; simpl; [|reflexivity].
  destruct (truthy data); simpl; [|auto].
  destruct (py_contains "operations" data) as [[]|e]; simpl; auto.
  destruct (py_getitem data "operations") as [operations|e]; simpl; auto.
  destruct (py_get data "workbook") as [wbn|e]; simpl; auto.
  destruct (py_get data "sheet") as [shn|e]; simpl; auto.
  destruct (locate _ _ _ _) as [resp|[wb ws]] eqn:Hloc.
  - apply locate_failure in Hloc as (msg & [-> | ->]); simpl; auto.
  - destruct (py_iter operations) as [ops|e]; simpl; auto.
    destruct (write_loop _ _ _ _ _ _) as [w' [results|e]]; simpl; auto.
Qed.

Lemma write_loop_app (ws : Sheet) (ops1 ops2 : list json) :
  Forall is_object ops1 ->
  forall (w w1 : W) (r1 : list op_result) (w2 : W) (r2 : list op_result),
  write_loop range_set_value py_repr ws ops1 w [] = (w1, Returns r1) ->
  write_loop range_set_value py_repr ws ops2 w1 [] = (w2, Returns r2) ->
  write_loop range_set_value py_repr ws (ops1 ++ ops2)%list w []
  = (w2, Returns (r1 ++ r2)%list).
Proof.
  induction 1 as [|op ops1 Hop Hall IH]; intros w w1 r1 w2 r2 Hr1 Hr2.
  - simpl in Hr1. inversion Hr1; subst. exact Hr2.
  - destruct op as [| | | | | |fields]; try done.
    destruct (write_operation_object range_set_value py_repr ws fields w)
      as (w0 & r0 & Hr0).
    destruct (write_loop_objects range_set_value py_repr ws ops1 Hall w0)
      as (w1' & r1' & Hr1' & _).
    rewrite (write_loop_cons range_set_value py_repr ws _ _ _ _ _ _ _ Hr0 Hr1') in Hr1.
    inversion Hr1; subst.
    change ((JObj fields :: ops1) ++ ops2)%list with (JObj fields :: (ops1 ++ ops2))%list.
    change ((r0 :: r1') ++ r2)%list with (r0 :: (r1' ++ r2))%list.
    eapply write_loop_cons; [exact Hr0|]. by eapply IH.
Qed.

(** X21: a batch can be split.  Sending the operations of a batch of
    objects in two requests, one after the other, to the same target
    leaves the same document as sending them in one request, and the
    results of the one request are the results of the two, in order. *)
Theorem batch_splits (xw : Xw) (target : list (string * json))
    (ops1 ops2 : list json) (wb : Book) (ws : Sheet) (w : W) :
  Forall is_object ops1 -> Forall is_object ops2 ->
  locate (py_str py_repr) xw (dict_get target "workbook") (dict_get target "sheet")
  = inr (wb, ws) ->
  exists w1 r1 w2 r2,
    write_excel_data range_set_value py_repr xw
      (Returns (JObj (("operations", JArr ops1) :: target))) w
    = (w1, {| status := 200; body := Results r1 |})
    /\ write_excel_data range_set_value py_repr xw
         (Returns (JObj (("operations", JArr ops2) :: target))) w1
       = (w2, {| status := 200; body := Results r2 |})
    /\ write_excel_data range_set_value py_repr xw
         (Returns (JObj (("operations", JArr (ops1 ++ ops2)%list) :: target))) w
       = (w2, {| status := 200; body := Results (r1 ++ r2)%list |}).
Proof.
  intros H1 H2 Hloc.
  destruct (write_loop_objects range_set_value py_repr ws ops1 H1 w)
    as (w1 & r1 & Hr1 & _).
  destruct (write_loop_objects range_set_value py_repr ws ops2 H2 w1)
    as (w2 & r2 & Hr2 & _).
  exists w1, r1, w2, r2.
  assert (forall ops w0,
    write_excel_data range_set_value py_repr xw
      (Returns (JObj (("operations", JArr ops) :: target))) w0
    = match write_loop range_set_value py_repr ws ops w0 [] with
      | (w', Returns results) => (w', {| status := 200; body := Results results |})
      | (w', Raises e) => (w', internal_error e)
      end) as Hrun.
  { intros ops w0.
    rewrite (write_excel_data_operations xw (("operations", JArr ops) :: target)
               (JArr ops) w0 eq_refl).
    change (dict_get (("operations", JArr ops) :: target) "workbook")
      with (dict_get target "workbook").
    change (dict_get (("operations", JArr ops) :: target) "sheet")
      with (dict_get target "sheet").
    by rewrite Hloc. }
  rewrite !Hrun, Hr1, Hr2. repeat split.
  by rewrite (write_loop_app ws ops1 ops2 H1 w w1 r1 w2 r2 Hr1 Hr2).
Qed.

End WriteMore.

(** ** Without an application *)

Section NoApplication.

Context {value W : Type} `{EqDecision value}.
Context (encodable : value -> bool).
Context (records_encodable : list (list (value * value)) -> bool).
Context (range_set_value : Sheet (value := value) -> json -> json -> W -> W * option string).
Context (py_repr : json -> string).

(** X3: when the binding has no active application, or raises while
    looking for it, the health check, every read and every write with
    operations are answered 503 "No Excel application running", whatever
    workbook and sheet are named, and nothing is written. *)
Theorem no_application (xw : Xw (value := value)) :
  (apps_active xw = Returns None \/ exists e, apps_active xw = Raises e) ->
  health_check xw
  = {| health_status := 503;
       health_body := Unhealthy "No Excel application running" |}
  /\ (forall args,
      get_excel_data encodable records_encodable xw args
      = error_response 503 "No Excel application running")
  /\ (forall fields (w : W),
      is_Some (dict_lookup fields "operations") ->
      write_excel_data range_set_value py_repr xw (Returns (JObj fields)) w
      = (w, error_response 503 "No Excel application running")).
Proof.
  intros Hnone. apply get_excel_app_none in Hnone. split; [|split].
  - unfold health_check. by rewrite Hnone.
  - intros args. unfold get_excel_data, locate. by rewrite Hnone.
  - intros fields w [operations Hops].
    rewrite (write_excel_data_operations range_set_value py_repr xw fields
               operations w Hops).
    unfold locate. by rewrite Hnone.
Qed.

End NoApplication.

(** ** The encoder, further *)

Section EncoderMore.

Import RobustJSONEncoder.

Context {npfloat decimal datetime : Type}.
Context (float_of_npfloat : npfloat -> spec_float).
Context (float_of_decimal : decimal -> outcome spec_float).
Context (isoformat : datetime -> string).

(** X23: [default] raises in three cases only, each with the object in
    none of the classes integer, float, array and date/time: the object is
    a decimal and its conversion to a float raises; the object is no
    decimal and [pd.isna] raises when its truth value is taken; the object
    is no decimal and no missing value, and the base class raises its
    [TypeError].  In every other case it returns a value; an integer, a
    float, an array and a date/time value are always encoded. *)
Theorem default_raises_iff (obj : pyobj (npfloat := npfloat) (decimal := decimal)
                                    (datetime := datetime)) (e : exn) :
  (RobustJSONEncoder.default float_of_npfloat float_of_decimal isoformat obj
   = Raises e
   <-> as_np_integer obj = None /\ as_np_floating obj = None
       /\ as_np_ndarray obj = None /\ as_datetime obj = None
       /\ ((exists d, as_decimal obj = Some d /\ float_of_decimal d = Raises e)
           \/ (as_decimal obj = None
               /\ (isna obj = Raises e
                   \/ (isna obj = Returns false /\ e = NotSerializable)))))
  /\ (is_Some (as_np_integer obj) \/ is_Some (as_np_floating obj)
      \/ is_Some (as_np_ndarray obj) \/ is_Some (as_datetime obj) ->
      exists out,
        RobustJSONEncoder.default float_of_npfloat float_of_decimal isoformat obj
        = Returns out).
Proof.
  unfold RobustJSONEncoder.default. split.
  - destruct (as_np_integer obj) as [z|].
    { split; [discriminate|]. intros (Hx & _). discriminate. }
    destruct (as_np_floating obj) as [x|].
    { split; [discriminate|]. intros (_ & Hx & _). discriminate. }
    destruct (as_np_ndarray obj) as [a|].
    { split; [discriminate|]. intros (_ & _ & Hx & _). discriminate. }
    destruct (as_datetime obj) as [d|].
    { split; [discriminate|]. intros (_ & _ & _ & Hx & _). discriminate. }
    destruct (as_decimal obj) as [d|].
    { split.
      - intros Hx. repeat split. left. exists d. split; [reflexivity|].
        destruct (float_of_decimal d); simpl in Hx; [discriminate|].
        by inversion Hx.
      - intros (_ & _ & _ & _ & [(d' & Hd & Hf)|[Hd _]]); [|discriminate].
        inversion Hd; subst d'. by rewrite Hf. }
    destruct (isna obj) as [[]|e0].
    + split; [discriminate|].
      intros (_ & _ & _ & _ & [(d' & Hd & _)|[_ [Hx|[Hx _]]]]); discriminate.
    + split.
      * intros Hx. inversion Hx. repeat split. right. auto.
      * intros (_ & _ & _ & _ & [(d' & Hd & _)|[_ [Hx|[_ ->]]]]);
          [discriminate|discriminate|reflexivity].
    + split.
      * intros Hx. inversion Hx. repeat split. right. auto.
      * intros (_ & _ & _ & _ & [(d' & Hd & _)|[_ [Hx|[Hx _]]]]);
          [discriminate|by inversion Hx|discriminate].
  - intros Hclass.
    destruct (as_np_integer obj) as [z|]; [eauto|].
    destruct (as_np_floating obj) as [x|]; [eauto|].
    destruct (as_np_ndarray obj) as [a|]; [eauto|].
    destruct (as_datetime obj) as [d|]; [eauto|].
    destruct Hclass as [[? Hx]|[[? Hx]|[[? Hx]|[? Hx]]]]; discriminate.
Qed.

End EncoderMore.

(** ** What the handlers read of a request *)

Section RequestFacts.

Context {value W : Type} `{EqDecision value}.
Context (encodable : value -> bool).
Context (records_encodable : list (list (value * value)) -> bool).
Context (range_set_value : Sheet (value := value) -> json -> json -> W -> W * option string).
Context (py_repr : json -> string).

(** X12: the read handler looks at the first value of the parameters
    [workbook], [sheet] and [include_cell_mapping] and at nothing else of
    the query: two queries that agree on these get the same response. *)
Theorem read_uses_three_parameters (xw : Xw (value := value))
    (args args' : list (string * string)) :
  (forall k, k ∈ ["workbook"; "sheet"; "include_cell_mapping"] ->
             args_get args k = args_get args' k) ->
  get_excel_data encodable records_encodable xw args
  = get_excel_data encodable records_encodable xw args'.
Proof.
  intros Hsame. unfold get_excel_data, include_cell_mapping.
  rewrite (Hsame "workbook"), (Hsame "sheet"), (Hsame "include_cell_mapping");
    [reflexivity|..]; rewrite !elem_of_cons; auto.
Qed.

Lemma write_excel_data_no_operations (xw : Xw (value := value))
    (fields : list (string * json)) (w : W) :
  dict_lookup fields "operations" = None ->
  write_excel_data range_set_value py_repr xw (Returns (JObj fields)) w
  = (w, no_operations).
Proof.
  intros Hnone. unfold write_excel_data.
  destruct (truthy (JObj fields)); [|reflexivity]. simpl. by rewrite Hnone.
Qed.

(** X22: the write handler looks at the keys [operations], [workbook]
    and [sheet] of the body and at nothing else: two bodies that agree on
    these get the same response and leave the same document. *)
Theorem write_uses_three_keys (xw : Xw (value := value))
    (fields fields' : list (string * json)) (w : W) :
  (forall k, k ∈ ["operations"; "workbook"; "sheet"] ->
             dict_lookup fields k = dict_lookup fields' k) ->
  write_excel_data range_set_value py_repr xw (Returns (JObj fields)) w
  = write_excel_data range_set_value py_repr xw (Returns (JObj fields')) w.
Proof.
  intros Hsame.
  assert (dict_lookup fields "operations" = dict_lookup fields' "operations") as Ho
    by (apply Hsame; rewrite !elem_of_cons; auto).
  assert (dict_get fields "workbook" = dict_get fields' "workbook") as Hw
    by (unfold dict_get; rewrite Hsame; [done|rewrite !elem_of_cons; auto]).
  assert (dict_get fields "sheet" = dict_get fields' "sheet") as Hs
    by (unfold dict_get; rewrite Hsame; [done|rewrite !elem_of_cons; auto]).
  destruct (dict_lookup fields "operations") as [operations|] eqn:Hops.
  - rewrite (write_excel_data_operations range_set_value py_repr xw fields
               operations w Hops).
    rewrite (write_excel_data_operations range_set_value py_repr xw fields'
               operations w (eq_sym Ho)).
    by rewrite Hw, Hs.
  - rewrite !write_excel_data_no_operations; done.
Qed.

End RequestFacts.

(** ** The further properties on the examples *)

Lemma health_check_cases_witness :
  health_status (health_check Examples.no_excel) = 503
  /\ health_check Demo.host
     = {| health_status := 200; health_body := Healthy "Book1.xlsx" |}.
Proof.
  split.
  - apply (proj1 (health_check_cases Examples.no_excel)). right. eexists. reflexivity.
  - apply (proj2 (proj2 (health_check_cases Demo.host)) "Book1.xlsx").
    eexists _, Demo.book. repeat split.
Defined.

Lemma health_agrees_with_read_witness :
  status (get_excel_data Demo.always Demo.always_records Examples.no_excel []) = 503
  /\ workbook Demo.document = "Book1.xlsx".
Proof.
  split.
  - apply (proj1 (health_agrees_with_read Demo.always Demo.always_records
                    Examples.no_excel [])). reflexivity.
  - apply (proj2 (health_agrees_with_read Demo.always Demo.always_records
                    Demo.host []) "Book1.xlsx" Demo.document); reflexivity.
Defined.

Lemma no_application_witness :
  get_excel_data Demo.always Demo.always_records Examples.no_excel
    [("workbook", "Book1.xlsx")]
  = error_response 503 "No Excel application running"
  /\ write_excel_data Demo.set_value Demo.repr Examples.no_excel
       (Returns (JObj Demo.batch)) []
     = ([], error_response 503 "No Excel application running").
Proof.
  destruct (no_application Demo.always Demo.always_records Demo.set_value Demo.repr
              Examples.no_excel
              (or_intror (ex_intro _ (Raised "XlwingsError"
                                        "Couldn't find any active App!") eq_refl)))
    as (_ & Hread & Hwrite).
  split; [apply Hread|]. apply Hwrite. eexists. reflexivity.
Defined.

Lemma empty_name_selects_active_witness :
  get_excel_data Demo.always Demo.always_records Demo.host [("sheet", "")]
  = get_excel_data Demo.always Demo.always_records Demo.host [].
Proof.
  exact (proj1 (empty_name_selects_active Demo.always Demo.always_records
                  Demo.host []) eq_refl).
Defined.

Lemma active_lookup_failure_witness :
  locate (py_str Demo.repr) Examples.no_book JNull JNull
  = inl (error_response 404 "No active workbook found").
Proof.
  apply (proj1 (active_lookup_failure (py_str Demo.repr) Examples.no_book
                  Examples.no_book_app Demo.book JNull JNull));
    [reflexivity|reflexivity|]. right. eexists. reflexivity.
Defined.

Lemma read_failure_is_500_witness :
  get_excel_data Demo.always Demo.always_records Examples.broken_host []
  = {| status := 500; body := ErrorStr (Raised "com_error" "RPC failed") |}.
Proof.
  apply (read_failure_is_500 Demo.always Demo.always_records Examples.broken_host []
           Examples.broken_book Examples.broken_sheet); [reflexivity|].
  left. reflexivity.
Defined.

Lemma read_table_not_empty_witness :
  exists d, body Demo.response = ExcelData d
            /\ length (data d) = fst (shape d)
            /\ (1 <= fst (shape d))%nat /\ (1 <= snd (shape d))%nat.
Proof.
  exact (read_table_not_empty Demo.always Demo.always_records Demo.host [] eq_refl).
Defined.

Lemma read_records_content_witness :
  data Demo.document !! 1%nat = Some [("Name", "Bob"); ("Age", "30")].
Proof.
  apply (read_records_content Demo.always Demo.always_records Demo.host []
           Demo.book Demo.sheet1 Demo.range_B3 Demo.frame Demo.document 1
           ["Bob"; "30"]); try reflexivity.
  apply NoDup_cons. split; [|apply NoDup_singleton].
  intros Hin. apply list_elem_of_singleton in Hin. discriminate.
Defined.

Lemma cell_mapping_keys_witness :
  is_Some (Demo.mapping !! "B4").
Proof.
  destruct (cell_mapping_keys Demo.always Demo.always_records Demo.host []
              Demo.book Demo.sheet1 Demo.range_B3 Demo.frame Demo.document
              Demo.mapping "B4") as [_ Hkey]; try reflexivity.
  apply Hkey. exists 0%nat, 0%nat. repeat split; simpl; lia.
Defined.

Lemma cell_mapping_size_witness :
  size Demo.mapping = 4%nat.
Proof.
  apply (cell_mapping_size Demo.always Demo.always_records Demo.host []
           Demo.document Demo.mapping); reflexivity.
Defined.

Lemma read_uses_three_parameters_witness :
  get_excel_data Demo.always Demo.always_records Demo.host [("verbose", "1")]
  = get_excel_data Demo.always Demo.always_records Demo.host [].
Proof.
  apply read_uses_three_parameters. intros k Hk.
  repeat (apply elem_of_cons in Hk as [->|Hk]; [reflexivity|]).
  by apply elem_of_nil in Hk.
Defined.

Lemma missing_operations_witness :
  write_excel_data Demo.set_value Demo.repr Examples.no_excel
    (Returns (JObj [("workbook", JStr "Book1.xlsx")])) []
  = ([], error_response 400 "No operations provided").
Proof.
  apply missing_operations. right. eexists. split; reflexivity.
Defined.

Lemma body_not_an_object_witness :
  exists resp : Response (value := string),
    (status resp = 400 \/ status resp = 500)
    /\ forall xw : Xw,
         write_excel_data Demo.set_value Demo.repr xw
           (Returns (JArr [JStr "operations"])) [] = ([], resp).
Proof.
  apply (proj2 (body_not_an_object Demo.set_value Demo.repr
                  (JArr [JStr "operations"]) [])).
  intros Hobj. exact Hobj.
Defined.

Lemma resolution_failure_aborts_witness :
  write_excel_data Demo.set_value Demo.repr Examples.no_book
    (Returns (JObj Demo.batch)) []
  = ([], error_response 404 "No active workbook found").
Proof.
  apply (resolution_failure_aborts Demo.set_value Demo.repr Examples.no_book
           Demo.batch (JArr [Demo.write_A1; Demo.bogus])); reflexivity.
Defined.

Lemma failed_batch_keeps_writes_witness :
  exists w1 r1,
    write_loop Demo.set_value Demo.repr Demo.sheet1 [Demo.write_A1] [] []
    = (w1, Returns r1)
    /\ write_excel_data Demo.set_value Demo.repr Demo.host
         (Returns (JObj Demo.batch_with_number)) []
       = (w1, {| status := 500; body := ErrorStr (NoAttribute (JInt 1) "get") |}).
Proof.
  apply (failed_batch_keeps_writes Demo.set_value Demo.repr Demo.host
           Demo.batch_with_number [Demo.write_A1] (JInt 1) [] Demo.book Demo.sheet1 []).
  - reflexivity.
  - repeat (constructor; [exact I|]). constructor.
  - intros Hobj. exact Hobj.
  - reflexivity.
Defined.

Lemma rejected_batch_writes_nothing_witness :
  exists results,
    write_excel_data Demo.set_value Demo.repr Demo.host
      (Returns (JObj [("operations",
                       JArr [Demo.bogus; Examples.write_cell_no_cell;
                             Examples.write_range_no_values])])) []
    = ([], {| status := 200; body := Results results |})
    /\ length results = 3%nat /\ Forall is_error results.
Proof.
  apply (rejected_batch_writes_nothing Demo.set_value Demo.repr Demo.host
           [("operations", JArr [Demo.bogus; Examples.write_cell_no_cell;
                                 Examples.write_range_no_values])]
           [Demo.bogus; Examples.write_cell_no_cell; Examples.write_range_no_values]
           Demo.book Demo.sheet1 []).
  - reflexivity.
  - repeat (constructor; [reflexivity|]). constructor.
  - reflexivity.
Defined.

Lemma write_range_operation_witness :
  write_operation Demo.set_value Demo.repr Demo.sheet1
    (JObj Examples.write_range_A1B2) []
  = Returns ([(JStr "A1:B2", JArr [JArr [JInt 1; JInt 2]; JArr [JInt 3; JInt 4]])],
             Success "Written data to range A1:B2").
Proof.
  exact (proj2 (write_range_operation Demo.set_value Demo.repr Demo.sheet1
                  Examples.write_range_A1B2 [] eq_refl)
           eq_refl eq_refl _ None eq_refl).
Defined.

Lemma operations_not_a_list_witness :
  exists resp,
    write_excel_data Demo.set_value Demo.repr Demo.host
      (Returns (JObj Examples.operations_as_text)) [] = ([], resp)
    /\ status resp = 500.
Proof.
  apply (operations_not_a_list Demo.set_value Demo.repr Demo.host
           Examples.operations_as_text (JStr "abc") Demo.book Demo.sheet1 []).
  - reflexivity.
  - intros Hlist. exact Hlist.
  - reflexivity.
Defined.

Lemma batch_splits_witness :
  exists w1 r1 w2 r2,
    write_excel_data Demo.set_value Demo.repr Demo.host
      (Returns (JObj [("operations", JArr [Demo.write_A1])])) []
    = (w1, {| status := 200; body := Results r1 |})
    /\ write_excel_data Demo.set_value Demo.repr Demo.host
         (Returns (JObj [("operations", JArr [Demo.bogus])])) w1
       = (w2, {| status := 200; body := Results r2 |})
    /\ write_excel_data Demo.set_value Demo.repr Demo.host
         (Returns (JObj [("operations", JArr [Demo.write_A1; Demo.bogus])])) []
       = (w2, {| status := 200; body := Results (r1 ++ r2)%list |}).
Proof.
  apply (batch_splits Demo.set_value Demo.repr Demo.host [] [Demo.write_A1]
           [Demo.bogus] Demo.book Demo.sheet1 []).
  - repeat (constructor; [exact I|]). constructor.
  - repeat (constructor; [exact I|]). constructor.
  - reflexivity.
Defined.

Lemma write_uses_three_keys_witness :
  write_excel_data Demo.set_value Demo.repr Demo.host
    (Returns (JObj (("comment", JStr "nightly") :: Demo.batch))) []
  = write_excel_data Demo.set_value Demo.repr Demo.host
      (Returns (JObj Demo.batch)) [].
Proof.
  apply write_uses_three_keys. intros k Hk.
  repeat (apply elem_of_cons in Hk as [->|Hk]; [reflexivity|]).
  by apply elem_of_nil in Hk.
Defined.

Lemma default_raises_iff_witness :
  RobustJSONEncoder.default (fun x : spec_float => x) Examples.float_of_decimal
    (fun d : string => d) Examples.decimal_snan
  = Raises (Raised "ValueError" "cannot convert signaling NaN to float").
Proof.
  apply (proj1 (default_raises_iff (fun x : spec_float => x)
                  Examples.float_of_decimal (fun d : string => d)
                  Examples.decimal_snan
                  (Raised "ValueError" "cannot convert signaling NaN to float"))).
  repeat split. left. exists None. split; reflexivity.
Defined.

